(** * Telemedicine queue optimisation: the AI engine

    A shallow embedding of [ai-engine/model/predictor.py],
    [ai-engine/model/trainer.py] and the model-handling endpoints of
    [ai-engine/main.py], and the properties of the priority score, of its
    explanation, of the synthetic training data and of the predictor's
    life cycle.

    Conventions.
    - Python [int] is [Z]; a finite NumPy/Python float is the rational
      it denotes ([Q], compared with [==]); decimal literals such as
      [0.3] are read as the exact fraction.  The float32 addition of
      the uplift in [predict] is rounded as float32 does; the float64
      arithmetic of the trainer is taken exact.
    - NumPy 1-D arrays are lists; the feature matrix is a list of rows.
    - Code with effects (attributes of the predictor, the module global
      [predictor], the file system, NumPy's global random state, standard
      output) is written in a state-and-exception monad [M].
    - scikit-learn, XGBoost, joblib, [os] and [numpy.random] are outside
      the repository: their operations are the fields of the class
      [Libs]; every theorem holds for every instance. *)

From Stdlib Require Import ZArith QArith Qminmax Qround Qabs Qpower Lqa.
From Stdlib Require Import Ascii String List Lia.
From stdpp Require Import gmap strings pretty.
Import ListNotations.

Local Open Scope string_scope.
Local Open Scope list_scope.

(** ** Python and NumPy primitives *)

(** [x is None]. *)
Definition is_None {A} (x : option A) : bool :=
  match x with None => true | Some _ => false end.

(** [sep.join(l)]. *)
Definition py_join (sep : string) (l : list string) : string :=
  String.concat sep l.

(** [int(x)] and [ndarray.astype(int)] on a finite float: truncation
    towards zero. *)
Definition py_int (x : Q) : Z := Z.quot (Qnum x) (Zpos (Qden x)).

(** [np.maximum], [np.minimum] and [np.clip(x, lo, hi)], which is
    [np.minimum(np.maximum(x, lo), hi)]. *)
Definition np_maximum (x y : Q) : Q := if Qle_bool x y then y else x.
Definition np_minimum (x y : Q) : Q := if Qle_bool x y then x else y.
Definition np_clip (x lo hi : Q) : Q := np_minimum (np_maximum x lo) hi.

(** *** float32 arithmetic

    XGBoost returns float32 scores, and NumPy (from version 2 on) keeps
    the sum of a float32 and a Python [int] in float32: the exact sum is
    rounded to the nearest float32, ties to the even significand.  The
    rounding is given on the rationals, with the 24-bit significand of
    float32 and no bound on the exponent (a sum of magnitude beyond
    float32's largest number is [inf] in NumPy; the clamp maps it and
    the value given here alike). *)

(** [floor(log2 |x|)] for [x] other than zero. *)
Definition binade (x : Q) : Z :=
  let e0 := (Z.log2 (Z.abs (Qnum x)) - Z.log2 (Zpos (Qden x)))%Z in
  if Qle_bool (2 ^ e0) (Qabs x) then e0 else (e0 - 1)%Z.

(** The nearest integer, ties to even. *)
Definition round_half_even (y : Q) : Z :=
  let f := Qfloor y in
  match (y - inject_Z f ?= 1 # 2)%Q with
  | Lt => f
  | Gt => (f + 1)%Z
  | Eq => if Z.even f then f else (f + 1)%Z
  end.

(** The nearest float32. *)
Definition round_float32 (x : Q) : Q :=
  if Qeq_bool x 0 then 0%Q
  else
    let ulp := (2 ^ (binade x - 23))%Q in
    Qred (inject_Z (round_half_even (x / ulp)) * ulp).

(** [a + b] on float32 values. *)
Definition float32_add (a b : Q) : Q := round_float32 (a + b).

(** ** predictor.py: the explanation

    [_generate_explanation] is pure; it is given here in three parts
    (the factor list, the level, the join) and then as the source has
    it. *)

Module Explanation.

(** Lines 157-181: [factors = []] and the successive [append]s. *)
Definition explanation_factors
    (age severity rural chronic : Z) (waiting_time : Q) : list string :=
  let factors := [] in
  let factors :=
    if (severity >=? 8)%Z then factors ++ ["High severity"]
    else if (severity >=? 5)%Z then factors ++ ["Moderate severity"]
    else factors ++ ["Low severity"] in
  let factors :=
    if (age >=? 65)%Z then factors ++ ["elderly patient"]
    else if (age >=? 50)%Z then factors ++ ["middle-aged patient"]
    else factors in
  let factors :=
    if (rural =? 1)%Z
    then factors ++ ["rural location (fairness uplift applied)"]
    else factors in
  let factors :=
    if (chronic =? 1)%Z then factors ++ ["chronic illness"] else factors in
  let factors :=
    if Qle_bool 60 waiting_time then factors ++ ["long wait time"]
    else if Qle_bool 30 waiting_time then factors ++ ["moderate wait time"]
    else factors in
  factors.

(** Lines 184-189. *)
Definition priority_level (score : Z) : string :=
  if (score >=? 80)%Z then "HIGH PRIORITY"
  else if (score >=? 50)%Z then "MEDIUM PRIORITY"
  else "LOW PRIORITY".

(** Lines 192-197: [factors[:-1]] is [removelast], [factors[-1]] is
    [last] (both only reached on a list of two or more). *)
Definition factor_text (factors : list string) : string :=
  if (1 <? length factors)%nat then
    py_join ", " (List.removelast factors) +:+ ", and " +:+ List.last factors ""
  else if (length factors =? 1)%nat then
    List.nth 0 factors ""
  else "standard case".

Definition _generate_explanation
    (age severity rural chronic : Z) (waiting_time : Q) (score : Z) : string :=
  let factors := explanation_factors age severity rural chronic waiting_time in
  priority_level score +:+ ": " +:+ factor_text factors.

End Explanation.

(** ** Exceptions and the state-and-exception monad *)

(** A raised exception: a built-in class with its message, or FastAPI's
    [HTTPException].  Every class used here derives from [Exception],
    so [except Exception] catches all of them. *)
Inductive Exn : Type :=
| PyError (cls : string) (msg : string)
| HTTPException (status_code : Z) (detail : string).

(** [str(e)]. *)
Definition str (e : Exn) : string :=
  match e with
  | PyError _ msg => msg
  | HTTPException c d => pretty c +:+ ": " +:+ d
  end.

(** A computation over a state [S]: it returns a value or raises, and
    in both cases leaves a state (what was mutated before a [raise]
    stays mutated). *)
Definition M (S A : Type) : Type := S -> (Exn + A) * S.

Definition ret {S A} (a : A) : M S A := fun s => (inr a, s).
Definition raise {S A} (e : Exn) : M S A := fun s => (inl e, s).
Definition bind {S A B} (m : M S A) (k : A -> M S B) : M S B :=
  fun s => match m s with
           | (inr a, s') => k a s'
           | (inl e, s') => (inl e, s')
           end.
(** [try: m except Exception as e: h e]. *)
Definition try_except {S A} (m : M S A) (h : Exn -> M S A) : M S A :=
  fun s => match m s with
           | (inr a, s') => (inr a, s')
           | (inl e, s') => h e s'
           end.
Definition gets {S A} (f : S -> A) : M S A := fun s => (inr (f s), s).
Definition modify {S} (f : S -> S) : M S unit := fun s => (inr tt, f s).
(** Run a computation on a component of the state. *)
Definition zoom {S T A} (proj : S -> T) (upd : T -> S -> S) (m : M T A)
  : M S A :=
  fun s => let '(r, t) := m (proj s) in (r, upd t s).
(** A call that returns or raises without touching the state. *)
Definition lift {S A} (r : Exn + A) : M S A := fun s => (r, s).

Declare Scope monad_scope.
Delimit Scope monad_scope with M.
Notation "x <- c1 ;; c2" := (bind c1 (fun x => c2))
  (at level 100, c1 at next level, right associativity) : monad_scope.
Notation "c1 ;; c2" := (bind c1 (fun _ => c2))
  (at level 100, right associativity) : monad_scope.

(** The outcome and the final state of a run. *)
Definition outcome {S A} (r : (Exn + A) * S) : Exn + A := fst r.
Definition final {S A} (r : (Exn + A) * S) : S := snd r.

(** ** The libraries the engine calls *)

(** A row of the feature matrix:
    [[age, severity, rural, chronic, waiting_time]] as floats. *)
Definition Row : Type := list Q.

(** The fitted regressor, as far as the engine uses it: its prediction
    for one row (XGBoost scores the rows of a batch independently) and
    the attribute [feature_importances_] ([None] when reading it raises
    [AttributeError]).  A model maps every row to a finite float32
    score: a regressor whose [predict] raises, or returns NaN or an
    infinity, is outside what is modelled here. *)
Record Model : Type := {
  predict_row : Row -> Q;
  feature_importances_ : option (list Q)
}.

(** [model.predict(X)]. *)
Definition model_predict (m : Model) (X : list Row) : list Q :=
  fmap (predict_row m) X.

Class Libs : Type := {
  (** [numpy.random]: the global generator's state, the state after
      [seed(s)], and one draw of each distribution used. *)
  RandomState : Type;
  random_seed : Z -> RandomState;
  random_normal : Q -> Q -> RandomState -> Q * RandomState;
  random_exponential : Q -> RandomState -> Q * RandomState;
  random_binomial1 : Q -> RandomState -> bool * RandomState;
  (** [joblib] and [os] over the file system. *)
  FileSystem : Type;
  joblib_load : string -> FileSystem -> Exn + Model;
  joblib_dump : Model -> string -> M FileSystem unit;
  os_makedirs_exist_ok : string -> M FileSystem unit;
  os_path_exists : string -> FileSystem -> bool;
  os_path_dirname : string -> string;
  (** [os.path.join(os.path.dirname(__file__), "model",
      "trained_model.joblib")]. *)
  trained_model_path : string;
  (** [train_test_split(X, y, test_size=0.2, random_state=42)], giving
      [(X_train, X_test, y_train, y_test)]. *)
  train_test_split :
    list Row -> list Q -> Exn + (list Row * list Row * list Q * list Q);
  (** [XGBRegressor(...).fit(X_train, y_train, eval_set=[(X_test, y_test)])]
      with the fixed hyperparameters of [train_model]. *)
  XGBRegressor_fit :
    list Row -> list Q -> list Row -> list Q -> Exn + Model;
  mean_squared_error : list Q -> list Q -> Exn + Q;
  r2_score : list Q -> list Q -> Exn + Q
}.

(** What [print] writes, one constructor per [print] statement of the
    sources (the formatting of numbers is not modelled). *)
Inductive Line : Type :=
| LineModelLoaded (model_path : string)
| LineModelSaved (model_path : string)
| LineGenerated (n_samples : Z)
| LineFeatures (names : list string)
| LineTargetRange (lo hi : Q)
| LineTraining
| LineMSE (mse : Q)
| LineR2 (r2 : Q)
| LineImportancesHeader
| LineImportance (name : string) (imp : Q)
| LineStarting
| LineLoadingExisting
| LineNoExisting
| LineReady
| LineRetraining.

Section World.
Context `{L : Libs}.

(** Everything outside the predictor that the code reads or writes. *)
Record World : Type := mkWorld {
  fs : FileSystem;
  np_random : RandomState;
  stdout : list Line
}.

Definition set_fs (f : FileSystem) (w : World) : World :=
  {| fs := f; np_random := np_random w; stdout := stdout w |}.
Definition set_np_random (r : RandomState) (w : World) : World :=
  {| fs := fs w; np_random := r; stdout := stdout w |}.

Definition print (l : Line) : M World unit :=
  modify (fun w =>
    {| fs := fs w; np_random := np_random w; stdout := stdout w ++ [l] |}).

Definition on_fs {A} (m : M FileSystem A) : M World A := zoom fs set_fs m.

End World.

Local Open Scope monad_scope.

(** ** predictor.py: the class [PriorityPredictor] *)

Module Predictor.

Import Explanation.

Record PriorityPredictor : Type := {
  model : option Model;
  is_loaded : bool;
  feature_names : list string
}.

Definition FEATURE_NAMES : list string :=
  ["age"; "severity"; "rural"; "chronic"; "waiting_time"].

Definition RURAL_FAIRNESS_UPLIFT : Z := 10.

(** [PriorityPredictor()]: the object [__init__] leaves. *)
Definition __init__ : PriorityPredictor :=
  {| model := None; is_loaded := false; feature_names := FEATURE_NAMES |}.

(** The two states of the engine, read off the flag [is_loaded]. *)
Inductive EngineState : Type := Unloaded | Loaded.
Definition engine_state (p : PriorityPredictor) : EngineState :=
  if is_loaded p then Loaded else Unloaded.

(** The value [predict] returns:
    [{"priority_score": ..., "reason": ...}]. *)
Record Prediction : Type := {
  priority_score : Z;
  reason : string
}.

Section Methods.
Context `{L : Libs}.

(** The state a method runs in: the object [self] and the world. *)
Record Obj : Type := mkObj {
  self : PriorityPredictor;
  world : World
}.

Definition set_world (w : World) (o : Obj) : Obj :=
  {| self := self o; world := w |}.
Definition in_world {A} (m : M World A) : M Obj A := zoom world set_world m.

(** Computations that leave the object [self] as it is, whatever they
    return or raise. *)
Definition keeps_self {A} (m : M Obj A) : Prop :=
  forall o, self (final (m o)) = self o.

(** A predictor whose flag [is_loaded] is only set when it holds a
    model. *)
Definition consistent (p : PriorityPredictor) : Prop :=
  is_loaded p = true -> model p <> None.

(** [self.model = v] and [self.is_loaded = b]. *)
Definition set_model (v : option Model) : M Obj unit :=
  modify (fun o =>
    {| self := {| model := v; is_loaded := is_loaded (self o);
                  feature_names := feature_names (self o) |};
       world := world o |}).
Definition set_is_loaded (b : bool) : M Obj unit :=
  modify (fun o =>
    {| self := {| model := model (self o); is_loaded := b;
                  feature_names := feature_names (self o) |};
       world := world o |}).

Definition load_model (model_path : string) : M Obj unit :=
  try_except
    (m <- in_world (gets (fun w => joblib_load model_path (fs w))) ;;
     m <- lift m ;;
     set_model (Some m) ;;
     set_is_loaded true ;;
     in_world (print (LineModelLoaded model_path)))
    (fun e =>
       set_is_loaded false ;;
       raise (PyError "Exception" ("Failed to load model: " +:+ str e))).

Definition save_model (model_path : string) : M Obj unit :=
  m <- gets (fun o => model (self o)) ;;
  match m with
  | Some m =>
      in_world (on_fs (joblib_dump m model_path)) ;;
      in_world (print (LineModelSaved model_path))
  | None => ret tt
  end.

(** Lines 115-116: the fairness uplift on the model's raw score,
    [raw_score += 10] on a float32. *)
Definition apply_uplift (rural : Z) (raw_score : Q) : Q :=
  if (rural =? 1)%Z
  then float32_add raw_score (inject_Z RURAL_FAIRNESS_UPLIFT)
  else raw_score.

(** Line 108: the one-row feature matrix. *)
Definition feature_row (age severity rural chronic : Z) (waiting_time : Q)
  : Row :=
  [inject_Z age; inject_Z severity; inject_Z rural; inject_Z chronic;
   waiting_time].

(** Lines 111-116: the score before the clamp, for a predictor holding
    [m]: the regressor's output on the row, with the uplift. *)
Definition pre_clamp_score (m : Model)
    (age severity rural chronic : Z) (waiting_time : Q) : Q :=
  apply_uplift rural
    (predict_row m (feature_row age severity rural chronic waiting_time)).

Definition predict (age severity rural chronic : Z) (waiting_time : Q)
  : M Obj Prediction :=
  loaded <- gets (fun o => is_loaded (self o)) ;;
  if negb loaded then raise (PyError "Exception" "Model not loaded") else
  let features := [feature_row age severity rural chronic waiting_time] in
  m <- gets (fun o => model (self o)) ;;
  preds <- match m with
           | Some m => ret (model_predict m features)
           | None => raise (PyError "AttributeError"
                       "'NoneType' object has no attribute 'predict'")
           end ;;
  raw_score <- match preds with
               | r :: _ => ret r
               | [] => raise (PyError "IndexError" "index 0 is out of bounds")
               end ;;
  let raw_score := apply_uplift rural raw_score in
  let priority_score := py_int (np_clip raw_score 0 100) in
  let reason :=
    _generate_explanation age severity rural chronic waiting_time
      priority_score in
  ret {| priority_score := priority_score; reason := reason |}.

(** [dict(zip(names, values))]: a later pair replaces an earlier one
    with the same key. *)
Definition dict_zip (names : list string) (values : list Q) : gmap string Q :=
  fold_left (fun d kv => <[fst kv := snd kv]> d) (combine names values) ∅.

Definition get_feature_importance : M Obj (option (gmap string Q)) :=
  o <- gets self ;;
  if negb (is_loaded o) || is_None (model o) then ret None else
  match model o with
  | Some m =>
      match feature_importances_ m with
      | Some importances => ret (Some (dict_zip (feature_names o) importances))
      | None => ret None
      end
  | None => ret None
  end.

End Methods.
End Predictor.

(** ** trainer.py: synthetic data and training *)

Module Trainer.

Import Predictor.

(** *** NumPy array operations *)

(** A binary elementwise operation on 1-D arrays, with NumPy's
    broadcasting: equal lengths, or one operand of length 1. *)
Definition broadcast2 {A B C} (f : A -> B -> C) (xs : list A) (ys : list B)
  : Exn + list C :=
  if (length xs =? length ys)%nat then inr (zip_with f xs ys)
  else match xs, ys with
       | [x], _ => inr (fmap (f x) ys)
       | _, [y] => inr (fmap (fun x => f x y) xs)
       | _, _ => inl (PyError "ValueError"
                        "operands could not be broadcast together")
       end.

Definition np_add : list Q -> list Q -> Exn + list Q := broadcast2 Qplus.

(** The rows of a matrix given by [n]-element columns. *)
Fixpoint rows_of (n : nat) (cols : list (list Q)) : list Row :=
  match n with
  | O => []
  | S n' => fmap (List.hd 0%Q) cols :: rows_of n' (fmap (@List.tl Q) cols)
  end.

(** [np.column_stack(cols)] on 1-D arrays. *)
Definition np_column_stack (cols : list (list Q)) : Exn + list Row :=
  match cols with
  | [] => inl (PyError "ValueError" "need at least one array to concatenate")
  | c :: cs =>
      if forallb (fun c' => (length c' =? length c)%nat) cs
      then inr (rows_of (length c) cols)
      else inl (PyError "ValueError"
                  "all the input array dimensions except for the concatenation axis must match exactly")
  end.

(** [a.min()] and [a.max()]: a reduction with no identity. *)
Definition ndarray_min (a : list Q) : Exn + Q :=
  match a with
  | [] => inl (PyError "ValueError"
                 "zero-size array to reduction operation minimum which has no identity")
  | x :: xs => inr (fold_left np_minimum xs x)
  end.
Definition ndarray_max (a : list Q) : Exn + Q :=
  match a with
  | [] => inl (PyError "ValueError"
                 "zero-size array to reduction operation maximum which has no identity")
  | x :: xs => inr (fold_left np_maximum xs x)
  end.

Section Functions.
Context `{L : Libs}.

(** *** [numpy.random] on the global state *)

(** [n] successive draws. *)
Fixpoint draws {A} (draw : RandomState -> A * RandomState) (n : nat)
    (s : RandomState) : list A * RandomState :=
  match n with
  | O => ([], s)
  | S n' =>
      let '(x, s1) := draw s in
      let '(xs, s2) := draws draw n' s1 in
      (x :: xs, s2)
  end.

(** One draw per parameter of the list. *)
Fixpoint draws_each {P A} (draw : P -> RandomState -> A * RandomState)
    (ps : list P) (s : RandomState) : list A * RandomState :=
  match ps with
  | [] => ([], s)
  | p :: ps' =>
      let '(x, s1) := draw p s in
      let '(xs, s2) := draws_each draw ps' s1 in
      (x :: xs, s2)
  end.

Definition with_random {A} (f : RandomState -> A * RandomState) : M World A :=
  fun w => let '(a, s) := f (np_random w) in (inr a, set_np_random s w).

(** Computations whose result and whose effect on the generator depend
    on the generator's state alone, and which leave the file system as
    it is. *)
Definition random_only {A} (m : M World A) : Prop :=
  forall w1 w2, np_random w1 = np_random w2 ->
    outcome (m w1) = outcome (m w2) /\
    np_random (final (m w1)) = np_random (final (m w2)) /\
    fs (final (m w1)) = fs w1.

(** A [size] argument below zero is refused. *)
Definition sized {A} (size : Z) (f : nat -> RandomState -> A * RandomState)
  : M World A :=
  if (size <? 0)%Z
  then raise (PyError "ValueError" "negative dimensions are not allowed")
  else with_random (f (Z.to_nat size)).

Definition np_random_seed (seed : Z) : M World unit :=
  modify (set_np_random (random_seed seed)).
Definition np_random_normal (loc scale : Q) (size : Z) : M World (list Q) :=
  sized size (draws (random_normal loc scale)).
Definition np_random_exponential (scale : Q) (size : Z) : M World (list Q) :=
  sized size (draws (random_exponential scale)).
(** [np.random.binomial(1, p, size)] and [np.random.binomial(1, ps)]
    with an array of probabilities. *)
Definition np_random_binomial1 (p : Q) (size : Z) : M World (list Z) :=
  sized size (draws (fun s => let '(b, s') := random_binomial1 p s in
                              (Z.b2z b, s'))).
Definition np_random_binomial1_each (ps : list Q) : M World (list Z) :=
  with_random
    (draws_each (fun p s => let '(b, s') := random_binomial1 p s in
                            (Z.b2z b, s')) ps).

(** *** [compute_priority_score] *)

(** The elementwise expressions of lines 103, 107 and 116. *)
Definition severity_score1 (severity : Z) : Q :=
  ((inject_Z severity / 10) * 40)%Q.
Definition age_score1 (age : Z) : Q :=
  if (age >=? 65)%Z then 20%Q
  else if (age >=? 50)%Z then 10%Q
  else (inject_Z age / 10)%Q.
Definition waiting_score1 (waiting_time : Q) : Q :=
  (np_minimum (waiting_time / 60) 1 * 10)%Q.

(** Line 119 on arrays of one length: the totals before noise. *)
Definition totals (age severity rural chronic : list Z) (waiting_time : list Q)
  : list Q :=
  zip_with Qplus
    (zip_with Qplus
       (zip_with Qplus
          (zip_with Qplus (severity_score1 <$> severity) (age_score1 <$> age))
          (inject_Z <$> ((fun c => (c * 15)%Z) <$> chronic)))
       (inject_Z <$> ((fun r => (r * 15)%Z) <$> rural)))
    (waiting_score1 <$> waiting_time).

Definition compute_priority_score
    (age severity rural chronic : list Z) (waiting_time : list Q)
  : M World (list Q) :=
  let severity_score := fmap severity_score1 severity in
  let age_score := fmap age_score1 age in
  let chronic_score := fmap (fun c => (c * 15)%Z) chronic in
  let rural_score := fmap (fun r => (r * 15)%Z) rural in
  let waiting_score := fmap waiting_score1 waiting_time in
  t <- lift (np_add severity_score age_score) ;;
  t <- lift (np_add t (fmap inject_Z chronic_score)) ;;
  t <- lift (np_add t (fmap inject_Z rural_score)) ;;
  total_score <- lift (np_add t waiting_score) ;;
  noise <- np_random_normal 0 3 (Z.of_nat (length total_score)) ;;
  total_score <- lift (np_add total_score noise) ;;
  ret (fmap (fun t => np_clip t 0 100) total_score).

(** *** [generate_training_data] *)

Definition generate_training_data (n_samples : Z)
  : M World (list Row * list Q) :=
  np_random_seed 42 ;;
  a <- np_random_normal 45 20 n_samples ;;
  let age := fmap (fun x => py_int (np_clip x 0 100)) a in
  e <- np_random_exponential 3 n_samples ;;
  let severity := fmap (fun x => py_int (np_clip (x + 1)%Q 1 10)) e in
  rural <- np_random_binomial1 0.3 n_samples ;;
  let chronic_base_prob := 0.15%Q in
  let chronic_age_factor := fmap (fun a => ((inject_Z a / 100) * 0.3)%Q) age in
  chronic <- np_random_binomial1_each
               (fmap (fun f => np_clip (chronic_base_prob + f)%Q 0 0.8)
                    chronic_age_factor) ;;
  w <- np_random_exponential 20 n_samples ;;
  let waiting_time := fmap (fun x => np_clip x 0 120) w in
  X <- lift (np_column_stack
               [fmap inject_Z age; fmap inject_Z severity; fmap inject_Z rural;
                fmap inject_Z chronic; waiting_time]) ;;
  y <- compute_priority_score age severity rural chronic waiting_time ;;
  print (LineGenerated n_samples) ;;
  print (LineFeatures ["age"; "severity"; "rural"; "chronic"; "waiting_time"]) ;;
  lo <- lift (ndarray_min y) ;;
  hi <- lift (ndarray_max y) ;;
  print (LineTargetRange lo hi) ;;
  ret (X, y).

(** *** [train_model] *)

(** [sorted(pairs, key=lambda x: -x[1])]: stable, by falling
    importance. *)
Fixpoint insert_by_importance (x : string * Q) (l : list (string * Q))
  : list (string * Q) :=
  match l with
  | [] => [x]
  | y :: ys =>
      if negb (Qle_bool (snd y) (snd x))
      then y :: insert_by_importance x ys
      else x :: y :: ys
  end.
Definition sorted_by_importance (l : list (string * Q)) : list (string * Q) :=
  fold_right insert_by_importance [] l.

(** A [for] loop of [print]s. *)
Fixpoint print_all (ls : list Line) : M World unit :=
  match ls with
  | [] => ret tt
  | l :: ls' => print l ;; print_all ls'
  end.

(** The dictionary [train_model] returns. *)
Record Metrics : Type := {
  mse : Q;
  r2 : Q;
  feature_importance : gmap string Q
}.

Definition train_model (X : list Row) (y : list Q) (model_path : string)
  : M Obj Metrics :=
  in_world (print LineTraining) ;;
  split <- lift (train_test_split X y) ;;
  let '(X_train, X_test, y_train, y_test) := split in
  model <- lift (XGBRegressor_fit X_train y_train X_test y_test) ;;
  let y_pred := model_predict model X_test in
  mse <- lift (mean_squared_error y_test y_pred) ;;
  r2 <- lift (r2_score y_test y_pred) ;;
  in_world (print (LineMSE mse)) ;;
  in_world (print (LineR2 r2)) ;;
  let feature_names := ["age"; "severity"; "rural"; "chronic"; "waiting_time"] in
  importances <-
    match feature_importances_ model with
    | Some i => ret i
    | None => raise (PyError "AttributeError"
                       "object has no attribute 'feature_importances_'")
    end ;;
  in_world (print LineImportancesHeader) ;;
  in_world (print_all
    (fmap (fun ni => LineImportance (fst ni) (snd ni))
         (sorted_by_importance (combine feature_names importances)))) ;;
  set_model (Some model) ;;
  set_is_loaded true ;;
  in_world (on_fs (os_makedirs_exist_ok (os_path_dirname model_path))) ;;
  save_model model_path ;;
  ret {| mse := mse; r2 := r2;
         feature_importance := dict_zip feature_names importances |}.

End Functions.
End Trainer.

(** ** main.py: the module global and the endpoints that use the model *)

Module Main.

Import Predictor Trainer.

(** The validated request body of [/predict]. *)
Record PatientData : Type := {
  age : Z;
  severity : Z;
  rural : Z;
  chronic : Z;
  waiting_time : Q
}.

Record HealthResponse : Type := {
  status : string;
  model_loaded : bool;
  version : string
}.

(** The dictionary [/retrain] returns. *)
Record RetrainResponse : Type := {
  retrain_status : string;
  retrain_message : string
}.

Section Endpoints.
Context `{L : Libs}.

(** The state of the service: the module global [predictor]
    ([None] until start-up) and the world. *)
Record App : Type := mkApp {
  predictor : option PriorityPredictor;
  app_world : World
}.

Definition set_app_world (w : World) (a : App) : App :=
  {| predictor := predictor a; app_world := w |}.
Definition app_in_world {A} (m : M World A) : M App A :=
  zoom app_world set_app_world m.

(** [predictor = v]. *)
Definition set_predictor (v : option PriorityPredictor) : M App unit :=
  modify (fun a => {| predictor := v; app_world := app_world a |}).

(** A method call, or [train_model], on the object bound to the global:
    the object is mutated in place, so what the call changed before
    raising is seen through the global. *)
Definition on_predictor {A} (m : M Obj A) : M App A :=
  fun a =>
    match predictor a with
    | Some p =>
        let '(r, o) := m (mkObj p (app_world a)) in
        (r, {| predictor := Some (self o); app_world := world o |})
    | None =>
        (inl (PyError "AttributeError" "'NoneType' object has no attribute"), a)
    end.

Definition startup_event : M App unit :=
  app_in_world (print LineStarting) ;;
  set_predictor (Some __init__) ;;
  let model_path := trained_model_path in
  found <- app_in_world (gets (fun w => os_path_exists model_path (fs w))) ;;
  (if found : bool then
     app_in_world (print LineLoadingExisting) ;;
     on_predictor (load_model model_path)
   else
     app_in_world (print LineNoExisting) ;;
     Xy <- app_in_world (generate_training_data 5000) ;;
     let '(X_train, y_train) := Xy in
     on_predictor (train_model X_train y_train model_path) ;;
     ret tt) ;;
  app_in_world (print LineReady).

Definition health_check : M App HealthResponse :=
  p <- gets predictor ;;
  ret {| status := "healthy";
         model_loaded := negb (is_None p) &&
                         match p with Some p => is_loaded p | None => false end;
         version := "1.0.0" |}.

Definition predict_priority (patient : PatientData) : M App Prediction :=
  p <- gets predictor ;;
  if is_None p || negb (match p with Some p => is_loaded p | None => false end)
  then raise (HTTPException 503 "ML model not loaded. Please try again later.")
  else
    try_except
      (result <- on_predictor
                   (predict (age patient) (severity patient) (rural patient)
                            (chronic patient) (waiting_time patient)) ;;
       ret {| priority_score := priority_score result;
              reason := reason result |})
      (fun e => raise (HTTPException 500 ("Prediction failed: " +:+ str e))).

Definition retrain_model : M App RetrainResponse :=
  try_except
    (app_in_world (print LineRetraining) ;;
     set_predictor (Some __init__) ;;
     Xy <- app_in_world (generate_training_data 5000) ;;
     let '(X_train, y_train) := Xy in
     let model_path := trained_model_path in
     on_predictor (train_model X_train y_train model_path) ;;
     ret {| retrain_status := "success";
            retrain_message := "Model retrained successfully" |})
    (fun e => raise (HTTPException 500 ("Retraining failed: " +:+ str e))).

End Endpoints.
End Main.

(** ** The specification's wording, for comparison with the code *)

Module Spec.

(** The five steps of the explanation, each an optional factor, in the
    order severity, age, rural, chronic, wait. *)
Definition severity_bucket (severity : Z) : string :=
  if decide (8 <= severity)%Z then "High severity"
  else if decide (5 <= severity)%Z then "Moderate severity"
  else "Low severity".
Definition age_bucket (age : Z) : option string :=
  if decide (65 <= age)%Z then Some "elderly patient"
  else if decide (50 <= age < 65)%Z then Some "middle-aged patient"
  else None.
Definition rural_factor (rural : Z) : option string :=
  if decide (rural = 1%Z) then Some "rural location (fairness uplift applied)"
  else None.
Definition chronic_factor (chronic : Z) : option string :=
  if decide (chronic = 1%Z) then Some "chronic illness" else None.
Definition wait_bucket (waiting_time : Q) : option string :=
  if Qlt_le_dec waiting_time 30 then None
  else if Qlt_le_dec waiting_time 60 then Some "moderate wait time"
  else Some "long wait time".
Definition factors
    (age severity rural chronic : Z) (waiting_time : Q) : list string :=
  severity_bucket severity ::
  omap id [age_bucket age; rural_factor rural; chronic_factor chronic;
           wait_bucket waiting_time].

(** The ground-truth total before noise: severity up to 40 points,
    the age term, 15 for each flag that is set, waiting time up to 10
    points with a cap at 60 minutes. *)
Definition age_term (age : Z) : Q :=
  if decide (65 <= age)%Z then 20%Q
  else if decide (50 <= age < 65)%Z then 10%Q
  else (inject_Z age / 10)%Q.
Definition flag_points (flag : Z) : Q :=
  if decide (flag = 0%Z) then 0%Q else 15%Q.
Definition label_total
    (age severity rural chronic : Z) (waiting_time : Q) : Q :=
  ((inject_Z severity / 10) * 40 + age_term age + flag_points chronic
   + flag_points rural + Qmin (waiting_time / 60) 1 * 10)%Q.

End Spec.

(** ** An in-memory instance of the libraries

    A small deterministic stand-in for the libraries, on which the
    statements are evaluated at concrete inputs: the file system is a
    map from paths to pickled models, the random draws follow a
    counter, the split keeps the order of the samples and the fit
    returns a given regressor. *)

Module InMemory.

Import Predictor Trainer.

(** The directory part of a path: what stands before its last ["/"]. *)
Fixpoint dirname_aux (s : string) : option string :=
  match s with
  | EmptyString => None
  | String c r =>
      match dirname_aux r with
      | Some d => Some (String c d)
      | None => if Ascii.eqb c "/"%char then Some "" else None
      end
  end.
Definition dirname (s : string) : string := default "" (dirname_aux s).

Definition load (path : string) (files : gmap string Model) : Exn + Model :=
  match files !! path with
  | Some m => inr m
  | None => inl (PyError "FileNotFoundError"
                   ("[Errno 2] No such file or directory: '" +:+ path
                    +:+ "'"))
  end.

Definition makedirs (d : string) : M (gmap string Model) unit :=
  if String.eqb d ""
  then raise (PyError "FileNotFoundError"
                "[Errno 2] No such file or directory: ''")
  else ret tt.

(** An 80/20 split in the order given: the first fifth (rounded up) is
    held out, and an empty training part is refused. *)
Definition split (X : list Row) (y : list Q)
  : Exn + (list Row * list Row * list Q * list Q) :=
  if negb (length X =? length y)%nat
  then inl (PyError "ValueError"
              "Found input variables with inconsistent numbers of samples")
  else
    let n_test := ((length X + 4) / 5)%nat in
    if (length X - n_test =? 0)%nat
    then inl (PyError "ValueError" "the resulting train set will be empty")
    else inr (drop n_test X, take n_test X, drop n_test y, take n_test y).

Definition mean (l : list Q) : Q :=
  (fold_right Qplus 0 l / inject_Z (Z.of_nat (length l)))%Q.

Definition squared_error (y_true y_pred : list Q) : Exn + Q :=
  if negb (length y_true =? length y_pred)%nat || (length y_true =? 0)%nat
  then inl (PyError "ValueError" "inconsistent or empty input")
  else inr (mean (zip_with (fun a b => ((a - b) * (a - b))%Q) y_true y_pred)).

Definition r2 (y_true y_pred : list Q) : Exn + Q :=
  match squared_error y_true y_pred with
  | inl e => inl e
  | inr res =>
      let m := mean y_true in
      inr (1 - res / mean (fmap (fun a => ((a - m) * (a - m))%Q) y_true))%Q
  end.

(** The regressor that returns the noise-free ground-truth total of
    the row: what the fit is trained to approximate. *)
Definition ground_truth_model : Model :=
  {| predict_row := fun row =>
       match row with
       | [age; severity; rural; chronic; waiting_time] =>
           (severity_score1 (py_int severity) + age_score1 (py_int age)
            + chronic * 15 + rural * 15 + waiting_score1 waiting_time)%Q
       | _ => 0%Q
       end;
     feature_importances_ := Some [0.2; 0.4; 0.15; 0.15; 0.1]%Q |}.

(** A regressor with the same score for every row. *)
Definition constant_model (c : Q) : Model :=
  {| predict_row := fun _ => c;
     feature_importances_ := Some [0.2; 0.2; 0.2; 0.2; 0.2]%Q |}.

Definition libs (fit : list Row -> list Q -> Exn + Model) : Libs :=
  {| RandomState := Z;
     random_seed := fun _ => 0%Z;
     random_normal := fun loc scale s =>
       ((loc + scale * (inject_Z (s mod 5) - 2) / 2)%Q, Z.succ s);
     random_exponential := fun scale s =>
       ((scale * inject_Z (s mod 7) / 2)%Q, Z.succ s);
     random_binomial1 := fun p s =>
       (negb (Qle_bool p (inject_Z (s mod 10) / 10)), Z.succ s);
     FileSystem := gmap string Model;
     joblib_load := load;
     joblib_dump := fun m path => modify (insert path m);
     os_makedirs_exist_ok := makedirs;
     os_path_exists := fun path files => negb (is_None (files !! path));
     os_path_dirname := dirname;
     trained_model_path := "model/trained_model.joblib";
     train_test_split := split;
     XGBRegressor_fit := fun X_train y_train _ _ => fit X_train y_train;
     mean_squared_error := squared_error;
     r2_score := r2 |}.

(** The fit succeeds with the ground-truth regressor ... *)
Definition fitting : Libs := libs (fun _ _ => inr ground_truth_model).
(** ... or always fails. *)
Definition failing : Libs :=
  libs (fun _ _ => inl (PyError "XGBoostError" "fit failed")).

(** A world with the given files, a fresh generator and no output. *)
Definition fitting_world (files : gmap string Model) : @World fitting :=
  @mkWorld fitting files 0%Z [].
Definition failing_world (files : gmap string Model) : @World failing :=
  @mkWorld failing files 0%Z [].

(** A predictor with [m] loaded, and the service holding it. *)
Definition loaded_with (m : Model) : PriorityPredictor :=
  {| model := Some m; is_loaded := true; feature_names := FEATURE_NAMES |}.

(** The file system that holds the trained model at the service's
    path, and the service in its initial state over given files. *)
Definition with_model_file : gmap string Model :=
  {["model/trained_model.joblib" := ground_truth_model]}.
Definition service_over (files : gmap string Model) : @Main.App fitting :=
  @Main.mkApp fitting None (fitting_world files).

(** Three samples and their labels. *)
Definition samples : list Row :=
  [[70; 9; 1; 1; 90]; [30; 2; 0; 0; 15]; [55; 5; 1; 0; 45]]%Q.
Definition labels : list Q := [96; 10; 52]%Q.

End InMemory.

(** * Properties *)

(** ** The explanation *)

Section ExplanationFacts.
Import Explanation.

Lemma factor_text_one (a : string) : factor_text [a] = a.
Proof. reflexivity. Qed.

Lemma factor_text_two (a b : string) :
  factor_text [a; b] = a +:+ ", and " +:+ b.
Proof. reflexivity. Qed.

Lemma removelast_snoc {A} (l : list A) (a : A) : List.removelast (l ++ [a]) = l.
Proof.
  induction l as [|x l IH]; [reflexivity|].
  simpl. destruct (l ++ [a]) eqn:E.
  - destruct l; discriminate.
  - now rewrite IH.
Qed.

Lemma last_snoc {A} (l : list A) (a d : A) : List.last (l ++ [a]) d = a.
Proof.
  induction l as [|x l IH]; [reflexivity|].
  simpl. destruct (l ++ [a]) eqn:E; [destruct l; discriminate | exact IH].
Qed.

(** Two or more factors: everything before the last is joined with
    commas, and the last follows [", and "]. *)
Lemma factor_text_many (a : string) (l : list string) (z : string) :
  factor_text (a :: l ++ [z]) = py_join ", " (a :: l) +:+ ", and " +:+ z.
Proof.
  unfold factor_text.
  replace (1 <? length (a :: l ++ [z]))%nat with true.
  - change (a :: l ++ [z]) with ((a :: l) ++ [z]).
    now rewrite removelast_snoc, last_snoc.
  - symmetry. apply Nat.ltb_lt. simpl. rewrite length_app. simpl. lia.
Qed.

Lemma Zgeb_decide (a b : Z) {T} (x y : T) :
  (if (a >=? b)%Z then x else y) = (if decide (b <= a)%Z then x else y).
Proof.
  rewrite Z.geb_leb. destruct (Z.leb_spec b a), (decide (b <= a)%Z); auto; lia.
Qed.

Lemma Zeqb_decide (a b : Z) {T} (x y : T) :
  (if (a =? b)%Z then x else y) = (if decide (a = b) then x else y).
Proof. destruct (Z.eqb_spec a b), (decide (a = b)); auto; contradiction. Qed.

Lemma Qle_bool_dec (a b : Q) {T} (x y : T) :
  (if Qle_bool a b then x else y) = (if Qlt_le_dec b a then y else x).
Proof.
  destruct (Qlt_le_dec b a) as [H|H].
  - destruct (Qle_bool a b) eqn:E; [|reflexivity].
    apply Qle_bool_iff in E. exfalso. exact (Qlt_not_le _ _ H E).
  - apply Qle_bool_iff in H. now rewrite H.
Qed.

(** The factor list of the code is the specification's: the severity
    bucket first, then the age bucket, rural, chronic and the wait
    bucket, each present or absent by its threshold. *)
Lemma explanation_factors_spec age severity rural chronic waiting_time :
  explanation_factors age severity rural chronic waiting_time
  = Spec.factors age severity rural chronic waiting_time.
Proof.
  unfold explanation_factors, Spec.factors, Spec.severity_bucket,
    Spec.age_bucket, Spec.rural_factor, Spec.chronic_factor, Spec.wait_bucket.
  rewrite !Zgeb_decide, !Zeqb_decide, !Qle_bool_dec.
  repeat case_decide; try lia;
    destruct (Qlt_le_dec waiting_time 60) as [H60|H60];
    destruct (Qlt_le_dec waiting_time 30) as [H30|H30];
    try reflexivity;
    exfalso; apply (Qlt_not_le _ _ H30);
    apply Qle_trans with (2 := H60); discriminate.
Qed.

End ExplanationFacts.

Section ExplanationClaims.
Import Explanation.

(** C3 (the code departs from the claim at two factors).  A patient
    with low severity, aged 70, not rural, not chronic, waiting 5
    minutes has exactly two factors, and the code joins them with a
    comma before "and": "Low severity, and elderly patient", where the
    claim has "Low severity and elderly patient". *)
Theorem two_factors_joined_with_comma :
  explanation_factors 70 2 0 0 5 = ["Low severity"; "elderly patient"] /\
  factor_text (explanation_factors 70 2 0 0 5)
    = "Low severity, and elderly patient" /\
  factor_text (explanation_factors 70 2 0 0 5)
    <> "Low severity and elderly patient" /\
  _generate_explanation 70 2 0 0 5 30
    = "LOW PRIORITY: Low severity, and elderly patient".
Proof. repeat split; try reflexivity. discriminate. Qed.

(** C6, as amended.  The factor list follows the fixed thresholds in
    the order severity, age, rural, chronic, wait; for severity 9, age
    70, rural, chronic and a wait of 70 minutes the reason is the level
    of the clamped score followed by ": High severity, elderly patient,
    rural location (fairness uplift applied), chronic illness, and long
    wait time", and it starts with "HIGH PRIORITY" exactly when the
    clamped score is at least 80; for severity 2, age 25, not rural,
    not chronic and a wait of 5 minutes the factor list is exactly
    "Low severity". *)
Theorem explanation_by_thresholds (score : Z) :
  (forall age severity rural chronic waiting_time,
     explanation_factors age severity rural chronic waiting_time
     = Spec.factors age severity rural chronic waiting_time) /\
  _generate_explanation 70 9 1 1 70 score
    = priority_level score +:+
      ": High severity, elderly patient, rural location (fairness uplift applied), chronic illness, and long wait time" /\
  (_generate_explanation 70 9 1 1 70 score
     = "HIGH PRIORITY: High severity, elderly patient, rural location (fairness uplift applied), chronic illness, and long wait time"
   <-> (80 <= score)%Z) /\
  factor_text (explanation_factors 25 2 0 0 5) = "Low severity".
Proof.
  split; [exact explanation_factors_spec|].
  split; [reflexivity|]. split; [|reflexivity].
  unfold _generate_explanation, priority_level.
  rewrite !Zgeb_decide.
  repeat case_decide; split; intros Hreason; try lia; try reflexivity;
    vm_compute in Hreason; discriminate Hreason.
Qed.

End ExplanationClaims.

(** ** float32 rounding *)

Section Float32Facts.

Lemma round_half_even_error (y : Q) :
  (- (1 # 2) <= inject_Z (round_half_even y) - y <= 1 # 2)%Q.
Proof.
  unfold round_half_even.
  pose proof (Qfloor_le y) as Hl. pose proof (Qlt_floor y) as Hu.
  rewrite inject_Z_plus in Hu. change (inject_Z 1) with 1%Q in Hu.
  destruct (y - inject_Z (Qfloor y) ?= 1 # 2)%Q eqn:E.
  - apply Qeq_alt in E. destruct (Z.even (Qfloor y)).
    + lra.
    + rewrite inject_Z_plus. change (inject_Z 1) with 1%Q. lra.
  - apply Qlt_alt in E. lra.
  - apply Qgt_alt in E. rewrite inject_Z_plus.
    change (inject_Z 1) with 1%Q. lra.
Qed.

Lemma pow2_pos (e : Z) : (0 < 2 ^ e)%Q.
Proof. apply Qpower_0_lt. reflexivity. Qed.

Lemma Qabs_frac (x : Q) :
  (Qabs x == inject_Z (Z.abs (Qnum x)) / inject_Z (Zpos (Qden x)))%Q.
Proof. destruct x as [n d]. simpl. apply Qmake_Qdiv. Qed.

Lemma binade_le (x : Q) : ~ (x == 0)%Q -> (2 ^ binade x <= Qabs x)%Q.
Proof.
  intros Hx. unfold binade.
  set (n := Z.abs (Qnum x)). set (d := Zpos (Qden x)).
  destruct (Qle_bool (2 ^ (Z.log2 n - Z.log2 d)) (Qabs x)) eqn:E.
  - now apply Qle_bool_iff.
  - assert (0 < n)%Z as Hn.
    { subst n. destruct x as [[|a|a] b]; simpl; try lia.
      exfalso. apply Hx. reflexivity. }
    assert (0 < d)%Z as Hd by (subst d; lia).
    destruct (Z.log2_spec n Hn) as [Hn1 _].
    destruct (Z.log2_spec d Hd) as [_ Hd2].
    pose proof (Z.log2_nonneg n) as Ha. pose proof (Z.log2_nonneg d) as Hb.
    replace (Z.log2 n - Z.log2 d - 1)%Z
      with (Z.log2 n - Z.succ (Z.log2 d))%Z by lia.
    rewrite Qpower_minus by discriminate.
    rewrite Qabs_frac. fold n d.
    change 2%Q with (inject_Z 2).
    rewrite <- !Zpower_Qpower by lia.
    set (A := (2 ^ Z.log2 n)%Z) in *. set (B := (2 ^ Z.succ (Z.log2 d))%Z) in *.
    assert (0 < inject_Z B)%Q as HB.
    { change 0%Q with (inject_Z 0). rewrite <- Zlt_Qlt. lia. }
    assert (0 < inject_Z d)%Q as HD.
    { change 0%Q with (inject_Z 0). rewrite <- Zlt_Qlt. lia. }
    apply Qle_shift_div_r; [exact HB|].
    unfold Qdiv. rewrite <- Qmult_assoc, (Qmult_comm (/ inject_Z d)), Qmult_assoc.
    apply Qle_shift_div_l; [exact HD|].
    rewrite <- !inject_Z_mult, <- Zle_Qle. nia.
Qed.

Lemma pow2_split (e k : Z) : (2 ^ (e + k) == 2 ^ e * 2 ^ k)%Q.
Proof. apply Qpower_plus. discriminate. Qed.

Lemma round_float32_error (x : Q) :
  (Qabs (round_float32 x - x) <= Qabs x * (1 # 16777216))%Q.
Proof.
  unfold round_float32. pose proof (Qabs_nonneg x) as HA.
  destruct (Qeq_bool x 0) eqn:E.
  - apply Qeq_bool_iff in E. apply Qabs_Qle_condition. lra.
  - assert (~ (x == 0)%Q) as Hx.
    { intros H. apply Qeq_bool_iff in H. congruence. }
    cbv zeta. rewrite Qred_correct.
    set (u := (2 ^ (binade x - 23))%Q).
    assert (0 < u)%Q as Hu by apply pow2_pos.
    assert (u == 2 ^ binade x * (1 # 8388608))%Q as Hsplit.
    { unfold u. replace (binade x - 23)%Z with (binade x + -23)%Z by lia.
      rewrite pow2_split. reflexivity. }
    pose proof (binade_le x Hx) as HP.
    pose proof (round_half_even_error (x / u)) as HD.
    set (r := round_half_even (x / u)) in *.
    assert (inject_Z r * u - x == (inject_Z r - x / u) * u)%Q as ->
      by (field; lra).
    rewrite Qabs_Qmult, (Qabs_pos u) by lra.
    apply Qle_trans with ((1 # 2) * u)%Q.
    + apply Qmult_le_compat_r; [|lra]. apply Qabs_Qle_condition. lra.
    + rewrite Hsplit.
      assert ((1 # 2) * (2 ^ binade x * (1 # 8388608))
              == 2 ^ binade x * (1 # 16777216))%Q as -> by ring.
      apply Qmult_le_compat_r; [exact HP | discriminate].
Qed.



Lemma round_half_even_le (y : Q) (M : Z) :
  (y <= inject_Z M)%Q -> (round_half_even y <= M)%Z.
Proof.
  intros H. unfold round_half_even.
  pose proof (Qfloor_le y) as Hl.
  assert (Qfloor y <= M)%Z as Hf.
  { apply Qfloor_resp_le in H. now rewrite Qfloor_Z in H. }
  destruct (y - inject_Z (Qfloor y) ?= 1 # 2)%Q eqn:E.
  - destruct (Z.even (Qfloor y)); [exact Hf|].
    apply Qeq_alt in E.
    assert (inject_Z (Qfloor y) < inject_Z M)%Q as Hlt by lra.
    rewrite <- Zlt_Qlt in Hlt. lia.
  - exact Hf.
  - apply Qgt_alt in E.
    assert (inject_Z (Qfloor y) < inject_Z M)%Q as Hlt by lra.
    rewrite <- Zlt_Qlt in Hlt. lia.
Qed.

(** Below [2^24] the unit of the last place is one over a power of
    two, so every integer is a multiple of it. *)
Lemma ulp_below_2_24 (x : Q) :
  (0 < x)%Q -> (x < 16777216)%Q ->
  exists k, (0 <= k)%Z /\
    (2 ^ (binade x - 23) * inject_Z (2 ^ k) == 1)%Q.
Proof.
  intros H0 H24.
  assert (~ (x == 0)%Q) as Hx by lra.
  pose proof (binade_le x Hx) as HP. rewrite Qabs_pos in HP by lra.
  assert (binade x < 24)%Z as He.
  { apply (Qpower_lt_compat_l_inv 2); [|reflexivity].
    apply Qle_lt_trans with x; [exact HP|].
    apply Qlt_le_trans with 16777216%Q; [exact H24 | discriminate]. }
  exists (23 - binade x)%Z. split; [lia|].
  change (inject_Z (2 ^ (23 - binade x)))
    with (inject_Z (2 ^ (23 - binade x))%Z).
  rewrite Zpower_Qpower by lia. change (inject_Z 2) with 2%Q.
  rewrite <- Qpower_plus by discriminate.
  replace (binade x - 23 + (23 - binade x))%Z with 0%Z by lia. reflexivity.
Qed.


Lemma round_float32_le_int (x : Q) (N : Z) :
  (0 < x)%Q -> (x < 16777216)%Q -> (x <= inject_Z N)%Q ->
  (round_float32 x <= inject_Z N)%Q.
Proof.
  intros H0 H24 HN. destruct (ulp_below_2_24 x H0 H24) as (k & Hk & Hu).
  unfold round_float32.
  assert (Qeq_bool x 0 = false) as ->.
  { destruct (Qeq_bool x 0) eqn:E; [|reflexivity].
    apply Qeq_bool_iff in E. lra. }
  cbv zeta. rewrite Qred_correct.
  set (u := (2 ^ (binade x - 23))%Q) in *.
  assert (0 < u)%Q as Hpos by apply pow2_pos.
  assert (inject_Z N == inject_Z (N * 2 ^ k) * u)%Q as ->.
  { rewrite inject_Z_mult, <- Qmult_assoc, (Qmult_comm _ u), Hu. ring. }
  apply Qmult_le_compat_r; [|lra].
  rewrite <- Zle_Qle. apply round_half_even_le.
  apply Qle_shift_div_r; [exact Hpos|].
  rewrite inject_Z_mult, <- Qmult_assoc, (Qmult_comm _ u), Hu. lra.
Qed.

End Float32Facts.

(** ** Scoring *)

Section Scoring.
Import Explanation Predictor.

(** What [predict] returns once a model is loaded. *)
Lemma predict_loaded `{L : Libs} (o : Obj) (m : Model)
    (age severity rural chronic : Z) (waiting_time : Q) :
  is_loaded (self o) = true ->
  model (self o) = Some m ->
  predict age severity rural chronic waiting_time o
  = (inr {| priority_score :=
              py_int (np_clip (pre_clamp_score m age severity rural chronic
                                 waiting_time) 0 100);
            reason :=
              _generate_explanation age severity rural chronic waiting_time
                (py_int (np_clip (pre_clamp_score m age severity rural chronic
                                    waiting_time) 0 100)) |}, o).
Proof.
  destruct o as [[mo lo fo] w]. simpl. intros -> ->. reflexivity.
Qed.

Lemma np_clip_bounds (x lo hi : Q) : (lo <= hi -> lo <= np_clip x lo hi <= hi)%Q.
Proof.
  intros Hlh. unfold np_clip, np_minimum, np_maximum.
  destruct (Qle_bool x lo) eqn:E1.
  - destruct (Qle_bool lo hi) eqn:E2.
    + split; [apply Qle_refl | exact Hlh].
    + split; [exact Hlh | apply Qle_refl].
  - assert (lo <= x)%Q as Hx.
    { destruct (Qlt_le_dec x lo) as [H|H]; [|exact H].
      apply Qlt_le_weak, Qle_bool_iff in H. congruence. }
    destruct (Qle_bool x hi) eqn:E2.
    + split; [exact Hx | now apply Qle_bool_iff].
    + split; [exact Hlh | apply Qle_refl].
Qed.

(** Truncation keeps a float of [[0, n]] in [[0, n]]. *)
Lemma py_int_bounds (x : Q) (n : Z) :
  (0 <= x <= inject_Z n)%Q -> (0 <= py_int x <= n)%Z.
Proof.
  destruct x as [a d]. unfold Qle, py_int. simpl. intros [H0 Hn].
  assert (0 <= a)%Z as Ha by lia.
  rewrite Z.quot_div_nonneg by lia. split.
  - apply Z.div_pos; lia.
  - apply Z.div_le_upper_bound; lia.
Qed.

(** C1, as amended.  The score before the clamp is the value [predict]
    clamps.  Without rural it is the regressor's output on the row;
    with rural it is the float32 sum of the regressor's output on that
    very row and 10: the exact sum rounded to the nearest float32,
    within a relative [2^-24] of it.  So between two rows that differ
    only in rural the scores before the clamp differ by 10 plus the
    difference of the regressor's outputs on the two rows (the
    regressor reads rural as a feature), up to that rounding. *)
Theorem rural_uplift_over_model_output
    (m : Model) (age severity chronic : Z) (waiting_time : Q) :
  (forall (L : Libs) (w : World) (names : list string) (rural : Z),
     outcome (predict age severity rural chronic waiting_time
                (mkObj {| model := Some m; is_loaded := true;
                          feature_names := names |} w))
     = inr {| priority_score :=
                py_int (np_clip (pre_clamp_score m age severity rural chronic
                                   waiting_time) 0 100);
              reason :=
                _generate_explanation age severity rural chronic waiting_time
                  (py_int (np_clip (pre_clamp_score m age severity rural
                                      chronic waiting_time) 0 100)) |}) /\
  pre_clamp_score m age severity 0 chronic waiting_time
  = predict_row m (feature_row age severity 0 chronic waiting_time) /\
  pre_clamp_score m age severity 1 chronic waiting_time
  = float32_add (predict_row m (feature_row age severity 1 chronic waiting_time))
      10 /\
  (Qabs (pre_clamp_score m age severity 1 chronic waiting_time
         - (predict_row m (feature_row age severity 1 chronic waiting_time)
            + 10))
   <= Qabs (predict_row m (feature_row age severity 1 chronic waiting_time)
            + 10) * (1 # 16777216))%Q /\
  (Qabs (pre_clamp_score m age severity 1 chronic waiting_time
         - pre_clamp_score m age severity 0 chronic waiting_time
         - (10 + (predict_row m (feature_row age severity 1 chronic
                                   waiting_time)
                  - predict_row m (feature_row age severity 0 chronic
                                     waiting_time))))
   <= Qabs (predict_row m (feature_row age severity 1 chronic waiting_time)
            + 10) * (1 # 16777216))%Q.
Proof.
  split; [intros; reflexivity|].
  split; [reflexivity|]. split; [reflexivity|].
  assert (pre_clamp_score m age severity 1 chronic waiting_time
          = round_float32
              (predict_row m (feature_row age severity 1 chronic waiting_time)
               + 10)) as -> by reflexivity.
  assert (pre_clamp_score m age severity 0 chronic waiting_time
          = predict_row m (feature_row age severity 0 chronic waiting_time))
    as -> by reflexivity.
  set (raw1 := predict_row m (feature_row age severity 1 chronic waiting_time)).
  set (raw0 := predict_row m (feature_row age severity 0 chronic waiting_time)).
  pose proof (round_float32_error (raw1 + 10)) as H.
  split; [exact H|].
  assert (round_float32 (raw1 + 10) - raw0 - (10 + (raw1 - raw0))
          == round_float32 (raw1 + 10) - (raw1 + 10))%Q as E by ring.
  apply Qabs_Qle_condition. apply Qabs_Qle_condition in H. lra.
Qed.

(** The rounding shows on a regressor that ignores rural: with the
    float32 score 63.999996185302734375 for every row, the sum with 10
    lies halfway between two float32 values and rounds to 74, so the
    score before the clamp rises by more than 10 and the score returned
    goes from 63 to 74. *)
Lemma rural_uplift_rounds_in_float32 :
  let m := InMemory.constant_model (16777215 # 262144) in
  (pre_clamp_score m 40 6 0 0 20 == 16777215 # 262144)%Q /\
  (pre_clamp_score m 40 6 1 0 20 == 74)%Q /\
  ~ (pre_clamp_score m 40 6 1 0 20 - pre_clamp_score m 40 6 0 0 20 == 10)%Q /\
  py_int (np_clip (pre_clamp_score m 40 6 0 0 20) 0 100) = 63%Z /\
  py_int (np_clip (pre_clamp_score m 40 6 1 0 20) 0 100) = 74%Z.
Proof.
  repeat split; try (vm_compute; reflexivity).
  intros H. vm_compute in H. discriminate H.
Qed.

(** C1 fails as stated: for the regressor that returns the ground-truth
    total, a patient of 30 with severity 5 scores 23 before the clamp
    when urban and 48 when rural, 25 apart. *)
Lemma rural_uplift_not_10_for_ground_truth :
  (pre_clamp_score InMemory.ground_truth_model 30 5 0 0 0 == 23)%Q /\
  (pre_clamp_score InMemory.ground_truth_model 30 5 1 0 0 == 48)%Q /\
  ~ (pre_clamp_score InMemory.ground_truth_model 30 5 1 0 0
     - pre_clamp_score InMemory.ground_truth_model 30 5 0 0 0 == 10)%Q.
Proof.
  repeat split; try (vm_compute; reflexivity).
  intros H. vm_compute in H. discriminate H.
Qed.

(** C2.  With a model loaded, [predict] returns, and the score it
    returns is an integer between 0 and 100. *)
Theorem priority_score_in_range `{L : Libs} (o : Obj) (m : Model)
    (age severity rural chronic : Z) (waiting_time : Q) :
  is_loaded (self o) = true ->
  model (self o) = Some m ->
  exists r,
    outcome (predict age severity rural chronic waiting_time o) = inr r /\
    (0 <= priority_score r <= 100)%Z.
Proof.
  intros Hl Hm. rewrite (predict_loaded o m) by assumption.
  eexists. split; [reflexivity|]. simpl.
  apply py_int_bounds, (np_clip_bounds _ 0 100). discriminate.
Qed.

Lemma priority_score_in_range_witness :
  let o := @mkObj InMemory.fitting
             (InMemory.loaded_with InMemory.ground_truth_model)
             (InMemory.fitting_world ∅) in
  is_loaded (self o) = true /\
  model (self o) = Some InMemory.ground_truth_model /\
  exists r,
    outcome (predict 70 9 1 1 70 o) = inr r /\
    (0 <= priority_score r <= 100)%Z.
Proof.
  split; [reflexivity|]. split; [reflexivity|].
  apply (@priority_score_in_range InMemory.fitting _
           InMemory.ground_truth_model); reflexivity.
Defined.

(** C7.  Without a loaded model [predict] raises "Model not loaded",
    returns no score and changes nothing; with a model loaded it
    returns a result. *)
Theorem predict_needs_loaded_model `{L : Libs} (o : Obj)
    (age severity rural chronic : Z) (waiting_time : Q) :
  (is_loaded (self o) = false ->
   predict age severity rural chronic waiting_time o
   = (inl (PyError "Exception" "Model not loaded"), o)) /\
  (forall m, is_loaded (self o) = true -> model (self o) = Some m ->
   exists r, predict age severity rural chronic waiting_time o = (inr r, o)).
Proof.
  split.
  - destruct o as [[mo lo fo] w]. simpl. intros ->. reflexivity.
  - intros m Hl Hm. rewrite (predict_loaded o m) by assumption. eauto.
Qed.

Lemma predict_needs_loaded_model_witness :
  let w := InMemory.fitting_world ∅ in
  let unloaded := @mkObj InMemory.fitting __init__ w in
  let loaded := @mkObj InMemory.fitting
                  (InMemory.loaded_with InMemory.ground_truth_model) w in
  predict 70 9 1 1 70 unloaded
    = (inl (PyError "Exception" "Model not loaded"), unloaded) /\
  exists r, predict 70 9 1 1 70 loaded = (inr r, loaded).
Proof.
  split.
  - apply (proj1 (@predict_needs_loaded_model InMemory.fitting _ 70 9 1 1 70)%Z).
    reflexivity.
  - apply (proj2 (@predict_needs_loaded_model InMemory.fitting _ 70 9 1 1 70)%Z
             InMemory.ground_truth_model); reflexivity.
Defined.

(** The endpoint [/predict] answers 503 without a loaded predictor. *)
Lemma predict_priority_unloaded `{L : Libs} (a : Main.App)
    (patient : Main.PatientData) :
  match Main.predictor a with
  | Some p => is_loaded p = false
  | None => True
  end ->
  Main.predict_priority patient a
  = (inl (HTTPException 503 "ML model not loaded. Please try again later."), a).
Proof.
  destruct a as [[[mo lo fo]|] w]; simpl; [intros ->|]; reflexivity.
Qed.

(** C6 fails as stated: with a loaded regressor that scores every row
    0, the patient with severity 9, age 70, rural, chronic and a wait
    of 70 minutes gets score 10 and a reason that starts with
    "LOW PRIORITY". *)
Lemma high_severity_reason_can_be_low_priority :
  let o := @mkObj InMemory.fitting
             (InMemory.loaded_with (InMemory.constant_model 0))
             (InMemory.fitting_world ∅) in
  outcome (predict 70 9 1 1 70 o)
  = inr {| priority_score := 10;
           reason := "LOW PRIORITY: High severity, elderly patient, rural location (fairness uplift applied), chronic illness, and long wait time" |}
  /\ ~ (exists r, outcome (predict 70 9 1 1 70 o) = inr r /\
          reason r = "HIGH PRIORITY: High severity, elderly patient, rural location (fairness uplift applied), chronic illness, and long wait time").
Proof.
  split; [reflexivity|]. intros (r & Hr & Hreason).
  vm_compute in Hr. injection Hr as <-. discriminate Hreason.
Qed.

(** C10.  [save_model] on a predictor whose model is [None] returns
    [None] without raising, and leaves the file system, the output and
    the predictor as they were; a save that succeeds returns the same
    value. *)
Theorem save_model_without_model_is_noop `{L : Libs}
    (model_path : string) (o : Obj) :
  model (self o) = None ->
  save_model model_path o = (inr tt, o) /\
  (forall o' v, outcome (save_model model_path o') = inr v ->
     outcome (save_model model_path o') = outcome (save_model model_path o)).
Proof.
  intros Hm. assert (save_model model_path o = (inr tt, o)) as E.
  { destruct o as [[mo lo fo] w]. simpl in Hm. subst mo. reflexivity. }
  split; [exact E|]. intros o' [] ->. now rewrite E.
Qed.

Lemma save_model_without_model_is_noop_witness :
  let o := @mkObj InMemory.fitting __init__
             (InMemory.fitting_world ∅) in
  model (self o) = None /\
  save_model "model/trained_model.joblib" o = (inr tt, o) /\
  (forall (o' : @Obj InMemory.fitting) v,
     outcome (save_model "model/trained_model.joblib" o') = inr v ->
     outcome (save_model "model/trained_model.joblib" o')
     = outcome (save_model "model/trained_model.joblib" o)).
Proof.
  split; [reflexivity|].
  apply (@save_model_without_model_is_noop InMemory.fitting). reflexivity.
Defined.

End Scoring.

(** ** The synthetic training data *)

Section TrainingData.
Import Predictor Trainer.
Context `{L : Libs}.

Lemma broadcast2_same {A B C} (f : A -> B -> C) (xs : list A) (ys : list B) :
  length xs = length ys -> broadcast2 f xs ys = inr (zip_with f xs ys).
Proof.
  intros H. unfold broadcast2. now rewrite (proj2 (Nat.eqb_eq _ _) H).
Qed.

Lemma length_draws {A} (draw : RandomState -> A * RandomState) n s :
  length (fst (draws draw n s)) = n.
Proof.
  revert s. induction n as [|n IH]; intros s; simpl; [reflexivity|].
  destruct (draw s) as [x s1]. specialize (IH s1).
  destruct (draws draw n s1) as [xs s2]. simpl in *. now rewrite IH.
Qed.

Lemma length_draws_each {P A} (draw : P -> RandomState -> A * RandomState)
    ps s :
  length (fst (draws_each draw ps s)) = length ps.
Proof.
  revert s. induction ps as [|p ps IH]; intros s; simpl; [reflexivity|].
  destruct (draw p s) as [x s1]. specialize (IH s1).
  destruct (draws_each draw ps s1) as [xs s2]. simpl in *. now rewrite IH.
Qed.

(** A draw of [n >= 0] values succeeds and advances the generator. *)
Lemma sized_of_nat {A} (f : nat -> RandomState -> A * RandomState) n w :
  sized (Z.of_nat n) f w
  = (inr (fst (f n (np_random w))), set_np_random (snd (f n (np_random w))) w).
Proof.
  unfold sized. replace (Z.of_nat n <? 0)%Z with false by (symmetry; apply Z.ltb_ge; lia).
  unfold with_random. rewrite Nat2Z.id. now destruct (f n (np_random w)).
Qed.

Lemma length_totals age severity rural chronic waiting_time :
  length severity = length age -> length rural = length age ->
  length chronic = length age -> length waiting_time = length age ->
  length (totals age severity rural chronic waiting_time) = length age.
Proof.
  intros. unfold totals. rewrite !length_zip_with, !length_fmap. lia.
Qed.

(** On arrays of one length [compute_priority_score] returns, having
    drawn one noise value per sample: the clamped noisy totals. *)
Lemma compute_priority_score_run age severity rural chronic waiting_time w :
  length severity = length age -> length rural = length age ->
  length chronic = length age -> length waiting_time = length age ->
  compute_priority_score age severity rural chronic waiting_time w
  = (inr ((fun t => np_clip t 0 100) <$>
          zip_with Qplus (totals age severity rural chronic waiting_time)
            (fst (draws (random_normal 0 3) (length age) (np_random w)))),
     set_np_random
       (snd (draws (random_normal 0 3) (length age) (np_random w))) w).
Proof.
  intros Hs Hr Hc Hw.
  pose proof (length_totals age severity rural chronic waiting_time Hs Hr Hc Hw)
    as Ht.
  unfold compute_priority_score, np_add, totals in *.
  rewrite broadcast2_same by (rewrite !length_fmap; lia).
  unfold bind at 1, lift at 1.
  rewrite broadcast2_same
    by (rewrite !length_zip_with, !length_fmap; lia).
  unfold bind at 1, lift at 1.
  rewrite broadcast2_same
    by (rewrite !length_zip_with, !length_fmap; lia).
  unfold bind at 1, lift at 1.
  rewrite broadcast2_same
    by (rewrite !length_zip_with, !length_fmap; lia).
  unfold bind at 1, lift at 1.
  unfold bind at 1, np_random_normal.
  rewrite sized_of_nat, Ht.
  rewrite broadcast2_same by (rewrite length_draws; exact Ht).
  reflexivity.
Qed.

Lemma np_clip_Qeq (x x' lo hi : Q) :
  (x == x' -> np_clip x lo hi == np_clip x' lo hi)%Q.
Proof.
  intros H. unfold np_clip, np_maximum.
  rewrite (Qleb_comp x x' H lo lo (Qeq_refl lo)).
  destruct (Qle_bool x' lo); [reflexivity|].
  unfold np_minimum. rewrite (Qleb_comp x x' H hi hi (Qeq_refl hi)).
  destruct (Qle_bool x' hi); [exact H | reflexivity].
Qed.

Lemma np_minimum_Qmin (x y : Q) : (np_minimum x y == Qmin x y)%Q.
Proof.
  unfold np_minimum. destruct (Qle_bool x y) eqn:E.
  - apply Qle_bool_iff in E. symmetry. now apply Q.min_l.
  - symmetry. apply Q.min_r. destruct (Qlt_le_dec y x) as [H|H].
    + now apply Qlt_le_weak.
    + apply Qle_bool_iff in H. congruence.
Qed.

(** The waiting-time term is capped: from 60 minutes on it is 10. *)
Lemma waiting_score1_cap (t : Q) : (60 <= t -> waiting_score1 t == 10)%Q.
Proof.
  intros H. unfold waiting_score1, np_minimum.
  destruct (Qle_bool (t / 60) 1) eqn:E; [|reflexivity].
  apply Qle_bool_iff in E.
  assert (1 <= t / 60)%Q as H1.
  { apply Qle_shift_div_l; [reflexivity|]. now rewrite Qmult_1_l. }
  rewrite (Qle_antisym _ _ E H1). reflexivity.
Qed.

(** One sample: the code's total is the specification's. *)
Lemma total_matches_spec (a s r c : Z) (t : Q) :
  (r = 0 \/ r = 1)%Z -> (c = 0 \/ c = 1)%Z ->
  (severity_score1 s + age_score1 a + inject_Z (c * 15) + inject_Z (r * 15)
   + waiting_score1 t == Spec.label_total a s r c t)%Q.
Proof.
  intros Hr Hc. unfold Spec.label_total, severity_score1, waiting_score1.
  rewrite np_minimum_Qmin.
  assert (age_score1 a = Spec.age_term a) as ->.
  { unfold age_score1, Spec.age_term. rewrite !Zgeb_decide.
    repeat case_decide; try reflexivity; lia. }
  assert (inject_Z (c * 15) = Spec.flag_points c) as ->
    by (destruct Hc as [-> | ->]; reflexivity).
  assert (inject_Z (r * 15) = Spec.flag_points r) as ->
    by (destruct Hr as [-> | ->]; reflexivity).
  reflexivity.
Qed.

(** C5.  On the arrays of the synthesizer (one length, flags 0 or 1)
    [compute_priority_score] returns one label per sample: the
    specification's total (40 points linear in severity/10, the age
    term, 15 per flag set, 10 points linear in the wait up to 60
    minutes) plus that sample's noise draw, clamped to [0, 100]; and
    from 60 minutes on the waiting term stays at 10. *)
Theorem ground_truth_label_formula
    (age severity rural chronic : list Z) (waiting_time : list Q) (w : World) :
  length severity = length age -> length rural = length age ->
  length chronic = length age -> length waiting_time = length age ->
  Forall (fun f => f = 0 \/ f = 1)%Z rural ->
  Forall (fun f => f = 0 \/ f = 1)%Z chronic ->
  exists ys,
    outcome (compute_priority_score age severity rural chronic waiting_time w)
      = inr ys /\
    length ys = length age /\
    (forall i a s r c t,
       age !! i = Some a -> severity !! i = Some s -> rural !! i = Some r ->
       chronic !! i = Some c -> waiting_time !! i = Some t ->
       exists e y,
         fst (draws (random_normal 0 3) (length age) (np_random w)) !! i
           = Some e /\
         ys !! i = Some y /\
         (y == np_clip (Spec.label_total a s r c t + e) 0 100)%Q) /\
    (forall t, (60 <= t)%Q -> (waiting_score1 t == 10)%Q).
Proof.
  intros Hs Hr Hc Hw Frural Fchronic.
  rewrite compute_priority_score_run by assumption.
  eexists. split; [reflexivity|]. split; [|split].
  - rewrite length_fmap, length_zip_with, length_totals, length_draws
      by assumption. lia.
  - intros i a s r c t Ha Hsi Hri Hci Hti.
    destruct (lookup_lt_is_Some_2
                (fst (draws (random_normal 0 3) (length age) (np_random w))) i)
      as [e He].
    { rewrite length_draws. eapply lookup_lt_Some, Ha. }
    exists e. eexists. split; [exact He|].
    rewrite list_lookup_fmap, lookup_zip_with. unfold totals.
    rewrite !lookup_zip_with, !list_lookup_fmap, Ha, Hsi, Hri, Hci, Hti, He.
    simpl. split; [reflexivity|].
    apply np_clip_Qeq. apply Qplus_comp; [|reflexivity].
    apply total_matches_spec.
    + exact (proj1 (Forall_lookup _ _) Frural i r Hri).
    + exact (proj1 (Forall_lookup _ _) Fchronic i c Hci).
  - exact waiting_score1_cap.
Qed.

End TrainingData.

Ltac flags_binary :=
  repeat (apply Forall_cons_2;
          [ first [ left; reflexivity | right; reflexivity ] | ]);
  apply Forall_nil_2.

Lemma ground_truth_label_formula_witness :
  let age := [70; 30]%Z in
  let severity := [9; 2]%Z in
  let rural := [1; 0]%Z in
  let chronic := [1; 0]%Z in
  let waiting_time := [90; 15]%Q in
  let w := InMemory.fitting_world ∅ in
  (length severity = length age /\ length rural = length age /\
   length chronic = length age /\ length waiting_time = length age /\
   Forall (fun f => f = 0 \/ f = 1)%Z rural /\
   Forall (fun f => f = 0 \/ f = 1)%Z chronic) /\
  exists ys,
    outcome (Trainer.compute_priority_score age severity rural chronic
               waiting_time w) = inr ys /\
    length ys = length age /\
    (forall i a s r c t,
       age !! i = Some a -> severity !! i = Some s -> rural !! i = Some r ->
       chronic !! i = Some c -> waiting_time !! i = Some t ->
       exists e y,
         fst (Trainer.draws (@random_normal InMemory.fitting 0 3) (length age)
                (np_random w)) !! i = Some e /\
         ys !! i = Some y /\
         (y == np_clip (Spec.label_total a s r c t + e) 0 100)%Q) /\
    (forall t, (60 <= t)%Q -> (Trainer.waiting_score1 t == 10)%Q).
Proof.
  split.
  - repeat split; try reflexivity; flags_binary.
  - apply (@ground_truth_label_formula InMemory.fitting);
      try reflexivity; flags_binary.
Defined.

Section Synthesizer.
Import Predictor Trainer.
Context `{L : Libs}.

(** C4 (the code departs from the claim at [n_samples = 0]).  With no
    samples every array is empty and the function raises [ValueError]
    at [y.min()], after the first two [print]s: it returns nothing. *)
Theorem generate_training_data_zero_raises (w : World) :
  outcome (generate_training_data 0 w)
  = inl (PyError "ValueError"
           "zero-size array to reduction operation minimum which has no identity")
  /\ stdout (final (generate_training_data 0 w))
     = stdout w ++ [LineGenerated 0;
                    LineFeatures ["age"; "severity"; "rural"; "chronic";
                                  "waiting_time"]].
Proof.
  split; [reflexivity|]. simpl. now rewrite <- app_assoc.
Qed.

Lemma bind_inr {S A B} (m : M S A) (k : A -> M S B) s a s' :
  m s = (inr a, s') -> bind m k s = k a s'.
Proof. intros H. unfold bind. now rewrite H. Qed.

Lemma bind_inl {S A B} (m : M S A) (k : A -> M S B) s e s' :
  m s = (inl e, s') -> bind m k s = (inl e, s').
Proof. intros H. unfold bind. now rewrite H. Qed.

Lemma sized_nonneg {A} (f : nat -> RandomState -> A * RandomState) n w :
  (0 <= n)%Z ->
  sized n f w
  = (inr (fst (f (Z.to_nat n) (np_random w))),
     set_np_random (snd (f (Z.to_nat n) (np_random w))) w).
Proof.
  intros H. rewrite <- (Z2Nat.id n H) at 1. apply sized_of_nat.
Qed.

Lemma with_random_run {A} (f : RandomState -> A * RandomState) w :
  with_random f w
  = (inr (fst (f (np_random w))), set_np_random (snd (f (np_random w))) w).
Proof. unfold with_random. now destruct (f (np_random w)). Qed.

Lemma length_rows_of n cols : length (rows_of n cols) = n.
Proof.
  revert cols. induction n as [|n IH]; intros cols; simpl; [reflexivity|].
  now rewrite IH.
Qed.

Lemma rows_of_width n cols :
  Forall (fun row => length row = length cols) (rows_of n cols).
Proof.
  revert cols. induction n as [|n IH]; intros cols; simpl.
  - apply Forall_nil_2.
  - apply Forall_cons_2; [apply length_fmap|].
    specialize (IH (List.tl <$> cols)). now rewrite length_fmap in IH.
Qed.

Lemma np_column_stack_5 (c1 c2 c3 c4 c5 : list Q) (k : nat) :
  length c1 = k -> length c2 = k -> length c3 = k -> length c4 = k ->
  length c5 = k ->
  np_column_stack [c1; c2; c3; c4; c5] = inr (rows_of k [c1; c2; c3; c4; c5]).
Proof.
  intros H1 H2 H3 H4 H5. unfold np_column_stack, forallb.
  now rewrite H1, H2, H3, H4, H5, Nat.eqb_refl.
Qed.

Lemma ndarray_min_nonempty (a : list Q) :
  (0 < length a)%nat -> exists lo, ndarray_min a = inr lo.
Proof. destruct a; simpl; [lia | eauto]. Qed.

Lemma ndarray_max_nonempty (a : list Q) :
  (0 < length a)%nat -> exists hi, ndarray_max a = inr hi.
Proof. destruct a; simpl; [lia | eauto]. Qed.

(** The part of C4 that holds: for [n_samples > 0] the function
    returns a matrix of [n_samples] rows of five features and
    [n_samples] labels, having printed the label range. *)
Lemma generate_training_data_positive (n : Z) (w : World) :
  (0 < n)%Z ->
  exists X y lo hi w',
    generate_training_data n w = (inr (X, y), w') /\
    length X = Z.to_nat n /\ length y = Z.to_nat n /\
    Forall (fun row => length row = 5%nat) X /\
    ndarray_min y = inr lo /\ ndarray_max y = inr hi /\
    stdout w' = stdout w ++
                [LineGenerated n;
                 LineFeatures ["age"; "severity"; "rural"; "chronic";
                               "waiting_time"];
                 LineTargetRange lo hi] /\
    fs w' = fs w.
Proof.
  intros Hn. unfold generate_training_data.
  erewrite bind_inr by reflexivity.
  erewrite bind_inr by (apply sized_nonneg; lia).
  erewrite bind_inr by (apply sized_nonneg; lia).
  erewrite bind_inr by (apply sized_nonneg; lia).
  erewrite bind_inr by apply with_random_run.
  erewrite bind_inr by (apply sized_nonneg; lia).
  set (k := Z.to_nat n).
  match goal with
  | |- context [np_column_stack [?c1; ?c2; ?c3; ?c4; ?c5]] =>
      assert (length c1 = k /\ length c2 = k /\ length c3 = k /\
              length c4 = k /\ length c5 = k) as (H1 & H2 & H3 & H4 & H5)
  end.
  { repeat split; rewrite ?length_fmap;
      try apply length_draws.
    rewrite length_draws_each, !length_fmap. apply length_draws. }
  erewrite bind_inr
    by (unfold lift; now rewrite (np_column_stack_5 _ _ _ _ _ k)).
  repeat rewrite length_fmap in H1. repeat rewrite length_fmap in H2.
  repeat rewrite length_fmap in H3. repeat rewrite length_fmap in H4.
  repeat rewrite length_fmap in H5.
  erewrite bind_inr.
  2:{ apply compute_priority_score_run; rewrite ?length_fmap; congruence. }
  match goal with
  | |- context [ndarray_min ?y] =>
      assert (length y = k) as Hy
  end.
  { rewrite length_fmap, length_zip_with, length_totals, length_draws
      by (rewrite ?length_fmap; congruence).
    rewrite ?length_fmap, H1. lia. }
  match goal with
  | |- context [ndarray_min ?y] =>
      destruct (ndarray_min_nonempty y) as [lo Hlo]; [rewrite Hy; lia|];
      destruct (ndarray_max_nonempty y) as [hi Hhi]; [rewrite Hy; lia|]
  end.
  erewrite bind_inr by reflexivity.
  erewrite bind_inr by reflexivity.
  rewrite Hlo, Hhi.
  do 5 eexists. split; [reflexivity|].
  split; [apply length_rows_of|]. split; [exact Hy|].
  split; [apply (rows_of_width _ [_; _; _; _; _])|].
  split; [exact Hlo|]. split; [exact Hhi|].
  split; [|reflexivity].
  simpl. rewrite <- !app_assoc. reflexivity.
Qed.

End Synthesizer.

(** ** Training and the life cycle of the predictor *)

Section LifeCycle.
Import Predictor Trainer Main.
Context `{L : Libs}.

Lemma print_all_run (ls : list Line) (w : World) :
  print_all ls w
  = (inr tt,
     {| fs := fs w; np_random := np_random w; stdout := stdout w ++ ls |}).
Proof.
  revert w. induction ls as [|l ls IH]; intros w.
  - simpl. unfold ret. destruct w. simpl. now rewrite app_nil_r.
  - simpl. erewrite bind_inr by reflexivity. rewrite IH. simpl.
    now rewrite <- app_assoc.
Qed.

Lemma in_world_run {A} (m : M World A) (o : Obj) :
  in_world m o = ((m (world o)).1, set_world (m (world o)).2 o).
Proof. unfold in_world, zoom. now destruct (m (world o)). Qed.

Lemma keeps_self_final {A} (m : M Obj A) (o : Obj) :
  keeps_self m -> self (final (m o)) = self o.
Proof. intros H. apply H. Qed.

Lemma keeps_self_ret {A} (a : A) : keeps_self (ret a).
Proof. intros o. reflexivity. Qed.

Lemma keeps_self_raise {A} (e : Exn) : keeps_self (raise (A := A) e).
Proof. intros o. reflexivity. Qed.

Lemma keeps_self_lift {A} (r : Exn + A) : keeps_self (lift r).
Proof. intros o. reflexivity. Qed.

Lemma keeps_self_gets {A} (f : Obj -> A) : keeps_self (gets f).
Proof. intros o. reflexivity. Qed.

Lemma keeps_self_in_world {A} (m : M World A) : keeps_self (in_world m).
Proof. intros o. rewrite in_world_run. reflexivity. Qed.

Lemma keeps_self_bind {A B} (m : M Obj A) (k : A -> M Obj B) :
  keeps_self m -> (forall a, keeps_self (k a)) -> keeps_self (bind m k).
Proof.
  intros Hm Hk o. unfold bind. specialize (Hm o).
  destruct (m o) as [[e|a] o1]; simpl in *; [exact Hm|].
  rewrite <- Hm. apply Hk.
Qed.

Lemma keeps_self_if {A} (b : bool) (m1 m2 : M Obj A) :
  keeps_self m1 -> keeps_self m2 -> keeps_self (if b then m1 else m2).
Proof. now destruct b. Qed.

Create HintDb keeps_self.
#[local] Hint Resolve keeps_self_ret keeps_self_raise keeps_self_lift
  keeps_self_gets keeps_self_in_world keeps_self_bind keeps_self_if
  : keeps_self.

Lemma keeps_self_save_model (model_path : string) :
  keeps_self (save_model model_path).
Proof.
  unfold save_model. apply keeps_self_bind; [auto with keeps_self|].
  intros [m|]; auto with keeps_self.
Qed.

Lemma keeps_self_predict age severity rural chronic waiting_time :
  keeps_self (predict age severity rural chronic waiting_time).
Proof.
  unfold predict. apply keeps_self_bind; [auto with keeps_self|].
  intros loaded. apply keeps_self_if; [auto with keeps_self|].
  apply keeps_self_bind; [auto with keeps_self|]. intros m.
  apply keeps_self_bind; [destruct m; auto with keeps_self|]. intros preds.
  apply keeps_self_bind; [destruct preds; auto with keeps_self|].
  auto with keeps_self.
Qed.

Lemma keeps_self_get_feature_importance : keeps_self get_feature_importance.
Proof.
  unfold get_feature_importance. apply keeps_self_bind; [auto with keeps_self|].
  intros p. apply keeps_self_if; [auto with keeps_self|].
  destruct (model p) as [m|]; [|auto with keeps_self].
  destruct (feature_importances_ m); auto with keeps_self.
Qed.

#[local] Hint Resolve keeps_self_save_model keeps_self_predict
  keeps_self_get_feature_importance : keeps_self.

(** [train_model] either raises before it touches the predictor and
    the file system, or leaves the predictor loaded with the model it
    has just fitted (whatever happens while saving). *)
Lemma train_model_cases (X : list Row) (y : list Q) (model_path : string)
    (o : Obj) :
  (exists e,
     outcome (train_model X y model_path o) = inl e /\
     self (final (train_model X y model_path o)) = self o /\
     fs (world (final (train_model X y model_path o))) = fs (world o)) \/
  (exists m,
     self (final (train_model X y model_path o))
     = {| model := Some m; is_loaded := true;
          feature_names := feature_names (self o) |}).
Proof.
  unfold train_model.
  erewrite bind_inr by reflexivity.
  destruct (train_test_split X y) as [e|[[[X_train X_test] y_train] y_test]].
  { left. exists e. now erewrite bind_inl by reflexivity. }
  erewrite bind_inr by reflexivity. cbv beta iota.
  destruct (XGBRegressor_fit X_train y_train X_test y_test) as [e|m].
  { left. exists e. now erewrite bind_inl by reflexivity. }
  erewrite bind_inr by reflexivity.
  destruct (mean_squared_error y_test (model_predict m X_test)) as [e|mse].
  { left. exists e. now erewrite bind_inl by reflexivity. }
  erewrite bind_inr by reflexivity.
  destruct (r2_score y_test (model_predict m X_test)) as [e|r2].
  { left. exists e. now erewrite bind_inl by reflexivity. }
  erewrite bind_inr by reflexivity.
  erewrite bind_inr by reflexivity.
  erewrite bind_inr by reflexivity.
  destruct (feature_importances_ m) as [importances|].
  2:{ left. eexists. now erewrite bind_inl by reflexivity. }
  erewrite bind_inr by reflexivity.
  erewrite bind_inr by reflexivity.
  erewrite bind_inr by (rewrite in_world_run, print_all_run; reflexivity).
  erewrite bind_inr by reflexivity.
  erewrite bind_inr by reflexivity.
  right. exists m. rewrite keeps_self_final; [reflexivity|].
  auto with keeps_self.
Qed.

(** C8.  When the split refuses an empty sample collection (as
    scikit-learn does), [train_model] on it raises that error, and the
    predictor (its model and its loaded flag) and the file system are
    as before the call. *)
Theorem train_model_empty_keeps_model
    (model_path : string) (o : Obj) (e : Exn) :
  train_test_split [] [] = inl e ->
  outcome (train_model [] [] model_path o) = inl e /\
  self (final (train_model [] [] model_path o)) = self o /\
  fs (world (final (train_model [] [] model_path o))) = fs (world o).
Proof.
  intros H. unfold train_model.
  erewrite bind_inr by reflexivity.
  erewrite bind_inl by (unfold lift; rewrite H; reflexivity).
  repeat split.
Qed.

(** What [load_model] does, by the outcome of [joblib.load]. *)
Lemma load_model_run (model_path : string) (o : Obj) :
  load_model model_path o
  = match joblib_load model_path (fs (world o)) with
    | inr m =>
        (inr tt,
         {| self := {| model := Some m; is_loaded := true;
                       feature_names := feature_names (self o) |};
            world := {| fs := fs (world o); np_random := np_random (world o);
                        stdout := stdout (world o)
                                  ++ [LineModelLoaded model_path] |} |})
    | inl e =>
        (inl (PyError "Exception" ("Failed to load model: " +:+ str e)),
         {| self := {| model := model (self o); is_loaded := false;
                       feature_names := feature_names (self o) |};
            world := world o |})
    end.
Proof.
  unfold load_model, try_except.
  erewrite bind_inr by (rewrite in_world_run; reflexivity).
  destruct o as [p w]. simpl.
  destruct (joblib_load model_path (fs w)) as [e|m]; reflexivity.
Qed.

(** [retrain_model], step by step: the global is rebound to a fresh
    predictor before the data is generated and the model trained. *)
Lemma retrain_model_run (a : App) :
  retrain_model a
  = match generate_training_data 5000
            {| fs := fs (app_world a); np_random := np_random (app_world a);
               stdout := stdout (app_world a) ++ [LineRetraining] |} with
    | (inl e, w1) =>
        (inl (HTTPException 500 ("Retraining failed: " +:+ str e)),
         mkApp (Some __init__) w1)
    | (inr (X, y), w1) =>
        match train_model X y trained_model_path (mkObj __init__ w1) with
        | (inl e, o) =>
            (inl (HTTPException 500 ("Retraining failed: " +:+ str e)),
             mkApp (Some (self o)) (world o))
        | (inr _, o) =>
            (inr {| retrain_status := "success";
                    retrain_message := "Model retrained successfully" |},
             mkApp (Some (self o)) (world o))
        end
    end.
Proof.
  unfold retrain_model, try_except.
  erewrite bind_inr by reflexivity.
  erewrite bind_inr by reflexivity.
  unfold bind at 1, app_in_world at 1, zoom.
  cbn [predictor app_world set_app_world].
  destruct (generate_training_data 5000 _) as [[e|[X y]] w1];
    [reflexivity|].
  unfold bind, on_predictor, raise, ret, set_app_world.
  cbn [predictor app_world].
  destruct (train_model X y trained_model_path (mkObj __init__ w1))
    as [[e|v] o1]; reflexivity.
Qed.

(** After [retrain_model] the global holds either the fresh predictor
    of [PriorityPredictor()] (nothing was fitted) or one loaded with the
    model just fitted; it returns only in the second case. *)
Lemma retrain_model_cases (a : App) :
  match outcome (retrain_model a) with
  | inr _ =>
      exists m, predictor (final (retrain_model a))
                = Some {| model := Some m; is_loaded := true;
                          feature_names := FEATURE_NAMES |}
  | inl _ =>
      predictor (final (retrain_model a)) = Some __init__ \/
      exists m, predictor (final (retrain_model a))
                = Some {| model := Some m; is_loaded := true;
                          feature_names := FEATURE_NAMES |}
  end.
Proof.
  rewrite retrain_model_run.
  destruct (generate_training_data 5000 _) as [[e|[X y]] w1].
  { left. reflexivity. }
  destruct (train_model_cases X y trained_model_path (mkObj __init__ w1))
    as [(e & He & Hself & _) | (m & Hself)];
    destruct (train_model X y trained_model_path (mkObj __init__ w1))
      as [[e'|v] o1]; unfold outcome, final in *; simpl in *;
    rewrite Hself; try discriminate; eauto.
Qed.

(** A split or a fit that raises makes [train_model] raise that error
    before it assigns anything. *)
Lemma train_model_raises_before_assignment (X : list Row) (y : list Q)
    (model_path : string) (o : Obj) (e : Exn) :
  (train_test_split X y = inl e \/
   exists X_train X_test y_train y_test,
     train_test_split X y = inr (X_train, X_test, y_train, y_test) /\
     XGBRegressor_fit X_train y_train X_test y_test = inl e) ->
  outcome (train_model X y model_path o) = inl e /\
  self (final (train_model X y model_path o)) = self o.
Proof.
  intros [Hsplit | (X_train & X_test & y_train & y_test & Hsplit & Hfit)];
    unfold train_model; erewrite bind_inr by reflexivity; rewrite Hsplit.
  - erewrite bind_inl by reflexivity. split; reflexivity.
  - erewrite bind_inr by reflexivity. cbv beta iota. rewrite Hfit.
    erewrite bind_inl by reflexivity. split; reflexivity.
Qed.

(** C9, as amended.  The engine has exactly two states, Unloaded (the
    state of [PriorityPredictor()]) and Loaded, by the flag [is_loaded],
    and [predict] raises "Model not loaded" in Unloaded.  [predict],
    [save_model] and [get_feature_importance] leave the predictor as it
    is; [train_model] leaves a Loaded predictor Loaded and ends Loaded
    whenever it returns; [load_model] ends Loaded when it returns, and
    when it raises it has set the flag to [False] (Unloaded) and kept
    the model it had.  [retrain_model] rebinds the global to a fresh
    predictor first: when the data generation, the split or the fit
    raises, it raises status 500 and the global is left bound to that
    fresh, Unloaded predictor, whatever was loaded before; otherwise
    the global holds the predictor as [train_model] left it, Loaded
    with the new model whenever [retrain_model] returns. *)
Theorem predictor_state_transitions :
  ((forall s : EngineState, s = Unloaded \/ s = Loaded) /\
   Unloaded <> Loaded /\
   engine_state __init__ = Unloaded /\
   (forall p, engine_state p = Loaded <-> is_loaded p = true) /\
   (forall age severity rural chronic waiting_time o,
      engine_state (self o) = Unloaded ->
      outcome (predict age severity rural chronic waiting_time o)
      = inl (PyError "Exception" "Model not loaded"))) /\
  (forall age severity rural chronic waiting_time o,
     self (final (predict age severity rural chronic waiting_time o)) = self o) /\
  (forall model_path o, self (final (save_model model_path o)) = self o) /\
  (forall o, self (final (get_feature_importance o)) = self o) /\
  (forall X y model_path o,
     is_loaded (self o) = true ->
     is_loaded (self (final (train_model X y model_path o))) = true) /\
  (forall X y model_path o v,
     outcome (train_model X y model_path o) = inr v ->
     is_loaded (self (final (train_model X y model_path o))) = true) /\
  (forall model_path o,
     match outcome (load_model model_path o) with
     | inr _ => is_loaded (self (final (load_model model_path o))) = true
     | inl _ =>
         is_loaded (self (final (load_model model_path o))) = false /\
         model (self (final (load_model model_path o))) = model (self o)
     end) /\
  (forall a,
     match generate_training_data 5000
             {| fs := fs (app_world a); np_random := np_random (app_world a);
                stdout := stdout (app_world a) ++ [LineRetraining] |} with
     | (inl e, w1) =>
         retrain_model a
         = (inl (HTTPException 500 ("Retraining failed: " +:+ str e)),
            mkApp (Some __init__) w1)
     | (inr (X, y), w1) =>
         predictor (final (retrain_model a))
         = Some (self (final (train_model X y trained_model_path
                                (mkObj __init__ w1)))) /\
         (forall e,
            (train_test_split X y = inl e \/
             exists X_train X_test y_train y_test,
               train_test_split X y
                 = inr (X_train, X_test, y_train, y_test) /\
               XGBRegressor_fit X_train y_train X_test y_test = inl e) ->
            outcome (retrain_model a)
            = inl (HTTPException 500 ("Retraining failed: " +:+ str e)) /\
            predictor (final (retrain_model a)) = Some __init__) /\
         (forall v,
            outcome (retrain_model a) = inr v ->
            exists m,
              predictor (final (retrain_model a))
              = Some {| model := Some m; is_loaded := true;
                        feature_names := FEATURE_NAMES |})
     end).
Proof.
  split.
  { split; [intros []; auto|]. split; [discriminate|].
    split; [reflexivity|]. split.
    - intros p. unfold engine_state. destruct (is_loaded p); split;
        intros H; try reflexivity; discriminate H.
    - intros age severity rural chronic waiting_time [[mo lo fo] w].
      unfold engine_state. simpl. destruct lo; [discriminate|]. reflexivity. }
  split; [intros; apply keeps_self_final; auto with keeps_self|].
  split; [intros; apply keeps_self_final; auto with keeps_self|].
  split; [intros; apply keeps_self_final; auto with keeps_self|].
  split; [|split; [|split]].
  - intros X y model_path o Hl.
    destruct (train_model_cases X y model_path o)
      as [(e & _ & -> & _) | (m & ->)]; [exact Hl | reflexivity].
  - intros X y model_path o v Hv.
    destruct (train_model_cases X y model_path o)
      as [(e & He & _) | (m & ->)]; [congruence | reflexivity].
  - intros model_path o. rewrite load_model_run.
    destruct (joblib_load model_path (fs (world o))); simpl; auto.
  - intros a. rewrite retrain_model_run.
    destruct (generate_training_data 5000 _) as [[e|[X y]] w1];
      [reflexivity|].
    split; [|split].
    + destruct (train_model X y trained_model_path (mkObj __init__ w1))
        as [[e|v] o1]; reflexivity.
    + intros e He.
      destruct (train_model_raises_before_assignment X y trained_model_path
                  (mkObj __init__ w1) e He) as [Ho Hs].
      destruct (train_model X y trained_model_path (mkObj __init__ w1))
        as [[e'|v] o1]; unfold outcome, final in *; simpl in *;
        [|discriminate].
      injection Ho as ->. now rewrite Hs.
    + intros v.
      destruct (train_model_cases X y trained_model_path (mkObj __init__ w1))
        as [(e & He & _) | (m & Hself)];
        destruct (train_model X y trained_model_path (mkObj __init__ w1))
          as [[e'|v'] o1]; unfold outcome, final in *; simpl in *;
        try discriminate.
      intros _. exists m. now rewrite Hself.
Qed.

End LifeCycle.

Lemma train_model_empty_keeps_model_witness :
  let o := @Predictor.mkObj InMemory.fitting
             (InMemory.loaded_with InMemory.ground_truth_model)
             (InMemory.fitting_world ∅) in
  let e := PyError "ValueError" "the resulting train set will be empty" in
  @train_test_split InMemory.fitting [] [] = inl e /\
  outcome (Trainer.train_model [] [] "model/trained_model.joblib" o) = inl e /\
  Predictor.self (final (Trainer.train_model [] [] "model/trained_model.joblib" o))
    = Predictor.self o /\
  fs (Predictor.world
        (final (Trainer.train_model [] [] "model/trained_model.joblib" o)))
    = fs (Predictor.world o).
Proof.
  split; [reflexivity|].
  apply (@train_model_empty_keeps_model InMemory.fitting). reflexivity.
Defined.

Lemma predictor_state_transitions_witness :
  let o := @Predictor.mkObj InMemory.fitting
             (InMemory.loaded_with InMemory.ground_truth_model)
             (InMemory.fitting_world ∅) in
  Predictor.is_loaded (Predictor.self o) = true /\
  Predictor.is_loaded
    (Predictor.self
       (final (Trainer.train_model [] [] "model/trained_model.joblib" o)))
  = true.
Proof.
  split; [reflexivity|].
  apply (proj1 (proj2 (proj2 (proj2 (proj2
           (@predictor_state_transitions InMemory.fitting)))))).
  reflexivity.
Defined.

(** C9 fails as stated: a predictor with a model loaded is Unloaded
    after [load_model] fails on a path that does not exist (the model
    it held is still there, but [predict] now refuses). *)
Lemma failed_load_unloads_predictor :
  let o := @Predictor.mkObj InMemory.fitting
             (InMemory.loaded_with InMemory.ground_truth_model)
             (InMemory.fitting_world ∅) in
  Predictor.is_loaded (Predictor.self o) = true /\
  (exists e,
     @joblib_load InMemory.fitting "missing.joblib" (fs (Predictor.world o))
       = inl e /\
     outcome (Predictor.load_model "missing.joblib" o)
     = inl (PyError "Exception" ("Failed to load model: " +:+ str e))) /\
  Predictor.is_loaded
    (Predictor.self (final (Predictor.load_model "missing.joblib" o))) = false /\
  Predictor.model
    (Predictor.self (final (Predictor.load_model "missing.joblib" o)))
    = Some InMemory.ground_truth_model /\
  outcome (Predictor.predict 70 9 1 1 70
             (final (Predictor.load_model "missing.joblib" o)))
  = inl (PyError "Exception" "Model not loaded").
Proof.
  split; [reflexivity|]. split; [eexists; split; reflexivity|].
  repeat split.
Qed.

(** The same for [/retrain]: when the fit fails, the service that had a
    model loaded is left with a fresh predictor and no model. *)
Lemma failed_retrain_unloads_service :
  let a := @Main.mkApp InMemory.failing
             (Some (InMemory.loaded_with InMemory.ground_truth_model))
             (InMemory.failing_world ∅) in
  Main.predictor a
  = Some (InMemory.loaded_with InMemory.ground_truth_model) /\
  (exists e,
     outcome (Main.retrain_model a)
     = inl (HTTPException 500 ("Retraining failed: " +:+ str e))) /\
  Main.predictor (final (Main.retrain_model a)) = Some Predictor.__init__ /\
  Predictor.engine_state Predictor.__init__ = Predictor.Unloaded.
Proof.
  split; [reflexivity|]. split; [|split; [|reflexivity]].
  - exists (PyError "XGBoostError" "fit failed"). vm_compute. reflexivity.
  - vm_compute. reflexivity.
Qed.

(** * Further properties of the code *)

(** ** The explanation and the final score *)

Section MoreExplanation.
Import Explanation Predictor.

(** The factor list starts with one of the three severity buckets and
    has at most four more entries, so the fallback text "standard case"
    of the join is never produced. *)
Theorem explanation_never_standard_case
    (age severity rural chronic : Z) (waiting_time : Q) :
  exists first rest,
    explanation_factors age severity rural chronic waiting_time
      = first :: rest /\
    In first ["High severity"; "Moderate severity"; "Low severity"] /\
    (length rest <= 4)%nat /\
    factor_text (explanation_factors age severity rural chronic waiting_time)
      <> "standard case".
Proof.
  unfold explanation_factors.
  destruct (severity >=? 8)%Z, (severity >=? 5)%Z, (age >=? 65)%Z,
    (age >=? 50)%Z, (rural =? 1)%Z, (chronic =? 1)%Z,
    (Qle_bool 60 waiting_time), (Qle_bool 30 waiting_time);
    do 2 eexists; (split; [reflexivity|]);
    (split; [simpl; tauto|]); (split; [simpl; lia|]); discriminate.
Qed.

(** The reason [predict] returns carries the level of the score it
    returns: "HIGH PRIORITY" from 80, "MEDIUM PRIORITY" from 50, "LOW
    PRIORITY" below. *)
Theorem reason_level_matches_score `{L : Libs} (o : Obj)
    (age severity rural chronic : Z) (waiting_time : Q) (r : Prediction) :
  outcome (predict age severity rural chronic waiting_time o) = inr r ->
  exists text,
    text = factor_text
             (explanation_factors age severity rural chronic waiting_time) /\
    ((80 <= priority_score r)%Z ->
       reason r = "HIGH PRIORITY: " +:+ text) /\
    ((50 <= priority_score r < 80)%Z ->
       reason r = "MEDIUM PRIORITY: " +:+ text) /\
    ((priority_score r < 50)%Z -> reason r = "LOW PRIORITY: " +:+ text).
Proof.
  destruct o as [[[m|] [|] fo] w]; simpl; intros H; try discriminate H.
  injection H as <-. eexists. split; [reflexivity|]. simpl.
  unfold _generate_explanation, priority_level. rewrite !Zgeb_decide.
  repeat split; intros Hs; repeat case_decide; try lia; reflexivity.
Qed.

End MoreExplanation.

Lemma reason_level_matches_score_witness :
  let o := @Predictor.mkObj InMemory.fitting
             (InMemory.loaded_with InMemory.ground_truth_model)
             (InMemory.fitting_world ∅) in
  let r := {| Predictor.priority_score := 62;
              Predictor.reason :=
                "MEDIUM PRIORITY: Moderate severity, middle-aged patient, rural location (fairness uplift applied), and moderate wait time" |} in
  outcome (Predictor.predict 55 5 1 0 45 o) = inr r /\
  exists text,
    text = Explanation.factor_text
             (Explanation.explanation_factors 55 5 1 0 45) /\
    ((80 <= Predictor.priority_score r)%Z ->
       Predictor.reason r = "HIGH PRIORITY: " +:+ text) /\
    ((50 <= Predictor.priority_score r < 80)%Z ->
       Predictor.reason r = "MEDIUM PRIORITY: " +:+ text) /\
    ((Predictor.priority_score r < 50)%Z ->
       Predictor.reason r = "LOW PRIORITY: " +:+ text).
Proof.
  split; [reflexivity|].
  apply (@reason_level_matches_score InMemory.fitting
           (@Predictor.mkObj InMemory.fitting
              (InMemory.loaded_with InMemory.ground_truth_model)
              (InMemory.fitting_world ∅))).
  reflexivity.
Defined.

Section FinalScore.
Import Predictor.

Lemma Qle_bool_false (x y : Q) : Qle_bool x y = false -> (y < x)%Q.
Proof.
  intros E. destruct (Qlt_le_dec y x) as [H|H]; [exact H|].
  apply Qle_bool_iff in H. congruence.
Qed.

(** Case analysis on the comparisons of [np_clip] and friends, turning
    each into an order fact for [lra]. *)
Ltac split_Qle_bool :=
  repeat match goal with
         | |- context [Qle_bool ?a ?b] =>
             lazymatch a with
             | context [Qle_bool _ _] => fail
             | _ => idtac
             end;
             let E := fresh "E" in
             destruct (Qle_bool a b) eqn:E;
             [apply Qle_bool_iff in E | apply Qle_bool_false in E]
         end.

Lemma np_clip_monotone (x y lo hi : Q) :
  (x <= y -> np_clip x lo hi <= np_clip y lo hi)%Q.
Proof.
  intros H. unfold np_clip, np_minimum, np_maximum. split_Qle_bool; lra.
Qed.

Lemma np_clip_shift (x d lo hi : Q) :
  (0 <= d -> np_clip (x + d) lo hi <= np_clip x lo hi + d)%Q.
Proof.
  intros H. unfold np_clip, np_minimum, np_maximum. split_Qle_bool; lra.
Qed.

(** On a float that is not negative [int] is the floor. *)
Lemma py_int_floor (x : Q) : (0 <= x)%Q -> py_int x = Qfloor x.
Proof.
  destruct x as [a d]. unfold Qle, py_int, Qfloor. simpl. intros H.
  apply Z.quot_div_nonneg; lia.
Qed.


(** The clamped integer score never falls when the raw score rises. *)
Lemma final_score_monotone (x y : Q) :
  (x <= y)%Q -> (py_int (np_clip x 0 100) <= py_int (np_clip y 0 100))%Z.
Proof.
  intros H.
  rewrite !py_int_floor by (apply (np_clip_bounds _ 0 100); discriminate).
  apply Qfloor_resp_le, np_clip_monotone, H.
Qed.


End FinalScore.


(** ** The ground-truth formula *)

Section GroundTruth.
Import Trainer.

(** Sample [i] of the totals before noise. *)
Lemma totals_lookup (age severity rural chronic : list Z)
    (waiting_time : list Q) (i : nat) (a s r c : Z) (t : Q) :
  age !! i = Some a -> severity !! i = Some s -> rural !! i = Some r ->
  chronic !! i = Some c -> waiting_time !! i = Some t ->
  totals age severity rural chronic waiting_time !! i
  = Some (severity_score1 s + age_score1 a + inject_Z (c * 15)
          + inject_Z (r * 15) + waiting_score1 t)%Q.
Proof.
  intros Ha Hs Hr Hc Ht. unfold totals.
  rewrite !lookup_zip_with, !list_lookup_fmap, Ha, Hs, Hr, Hc, Ht.
  reflexivity.
Qed.

Lemma Qdiv_10 (x : Q) : (x / 10 == x * (1 # 10))%Q.
Proof. field. Qed.

Lemma Qdiv_60 (x : Q) : (x / 60 == x * (1 # 60))%Q.
Proof. field. Qed.

Lemma severity_score1_monotone (s s' : Z) :
  (s <= s')%Z -> (severity_score1 s <= severity_score1 s')%Q.
Proof.
  intros H. unfold severity_score1. rewrite Zle_Qle in H.
  rewrite !Qdiv_10. lra.
Qed.

Lemma age_score1_monotone (a a' : Z) :
  (a <= a')%Z -> (age_score1 a <= age_score1 a')%Q.
Proof.
  intros H. unfold age_score1. rewrite !Zgeb_decide.
  repeat case_decide; try lia; try discriminate.
  - assert (inject_Z a <= inject_Z 50)%Q by (rewrite <- Zle_Qle; lia).
    change (inject_Z 50) with 50%Q in *. rewrite Qdiv_10. lra.
  - assert (inject_Z a <= inject_Z 50)%Q by (rewrite <- Zle_Qle; lia).
    change (inject_Z 50) with 50%Q in *. rewrite Qdiv_10. lra.
  - rewrite Zle_Qle in H. rewrite !Qdiv_10. lra.
Qed.

Lemma waiting_score1_monotone (t t' : Q) :
  (t <= t')%Q -> (waiting_score1 t <= waiting_score1 t')%Q.
Proof.
  intros H. unfold waiting_score1, np_minimum.
  destruct (Qle_bool (t / 60) 1) eqn:E1; destruct (Qle_bool (t' / 60) 1) eqn:E2;
    try apply Qle_bool_iff in E1; try apply Qle_bool_iff in E2;
    try apply Qle_bool_false in E1; try apply Qle_bool_false in E2;
    rewrite ?Qdiv_60 in *; lra.
Qed.

(** For features in their documented ranges (severity 1 to 10, age and
    waiting time not negative, flags 0 or 1) the total before noise
    already lies between 4 and 100: only the noise can bring the clamp
    into play. *)
Theorem noise_free_total_in_range (age severity rural chronic : list Z)
    (waiting_time : list Q) (i : nat) (a s r c : Z) (t : Q) :
  age !! i = Some a -> severity !! i = Some s -> rural !! i = Some r ->
  chronic !! i = Some c -> waiting_time !! i = Some t ->
  (0 <= a)%Z -> (1 <= s <= 10)%Z -> (r = 0 \/ r = 1)%Z ->
  (c = 0 \/ c = 1)%Z -> (0 <= t)%Q ->
  exists v,
    totals age severity rural chronic waiting_time !! i = Some v /\
    (4 <= v <= 100)%Q.
Proof.
  intros Ha Hs Hr Hc Ht Ha0 Hs1 Hr1 Hc1 Ht0.
  rewrite (totals_lookup _ _ _ _ _ i a s r c t) by assumption.
  eexists. split; [reflexivity|].
  assert (4 <= severity_score1 s <= 40)%Q as Hsev.
  { split.
    - apply Qle_trans with (severity_score1 1); [discriminate|].
      apply severity_score1_monotone. lia.
    - apply Qle_trans with (severity_score1 10); [|discriminate].
      apply severity_score1_monotone. lia. }
  assert (0 <= age_score1 a <= 20)%Q as Hage.
  { split.
    - apply Qle_trans with (age_score1 0); [discriminate|].
      apply age_score1_monotone. lia.
    - unfold age_score1. rewrite !Zgeb_decide.
      repeat case_decide; try discriminate.
      assert (inject_Z a <= inject_Z 50)%Q by (rewrite <- Zle_Qle; lia).
      change (inject_Z 50) with 50%Q in *. rewrite Qdiv_10. lra. }
  assert (0 <= waiting_score1 t <= 10)%Q as Hwait.
  { split.
    - apply Qle_trans with (waiting_score1 0); [discriminate|].
      apply waiting_score1_monotone, Ht0.
    - unfold waiting_score1, np_minimum.
      destruct (Qle_bool (t / 60) 1) eqn:E;
        [apply Qle_bool_iff in E; rewrite ?Qdiv_60 in *; lra | discriminate]. }
  assert (0 <= inject_Z (c * 15) <= 15)%Q as Hchronic
    by (destruct Hc1 as [-> | ->]; split; discriminate).
  assert (0 <= inject_Z (r * 15) <= 15)%Q as Hrural
    by (destruct Hr1 as [-> | ->]; split; discriminate).
  lra.
Qed.

(** Holding the flags fixed, a sample with higher (or equal) severity,
    age and waiting time never gets a lower total before noise. *)
Theorem noise_free_total_monotone
    (age age' severity severity' rural chronic : list Z)
    (waiting_time waiting_time' : list Q) (i : nat)
    (a a' s s' r c : Z) (t t' : Q) :
  age !! i = Some a -> age' !! i = Some a' ->
  severity !! i = Some s -> severity' !! i = Some s' ->
  rural !! i = Some r -> chronic !! i = Some c ->
  waiting_time !! i = Some t -> waiting_time' !! i = Some t' ->
  (a <= a')%Z -> (s <= s')%Z -> (t <= t')%Q ->
  exists v v',
    totals age severity rural chronic waiting_time !! i = Some v /\
    totals age' severity' rural chronic waiting_time' !! i = Some v' /\
    (v <= v')%Q.
Proof.
  intros Ha Ha' Hs Hs' Hr Hc Ht Ht' Haa Hss Htt.
  rewrite (totals_lookup _ _ _ _ _ i a s r c t) by assumption.
  rewrite (totals_lookup _ _ _ _ _ i a' s' r c t') by assumption.
  do 2 eexists. split; [reflexivity|]. split; [reflexivity|].
  pose proof (severity_score1_monotone s s' Hss).
  pose proof (age_score1_monotone a a' Haa).
  pose proof (waiting_score1_monotone t t' Htt).
  lra.
Qed.

End GroundTruth.

Lemma noise_free_total_in_range_witness :
  (([70; 30]%Z : list Z) !! 1%nat = Some 30%Z /\
   ([9; 2]%Z : list Z) !! 1%nat = Some 2%Z /\
   ([1; 0]%Z : list Z) !! 1%nat = Some 0%Z /\
   ([1; 0]%Z : list Z) !! 1%nat = Some 0%Z /\
   ([90; 15]%Q : list Q) !! 1%nat = Some 15%Q /\
   (0 <= 30)%Z /\ (1 <= 2 <= 10)%Z /\ (0 = 0 \/ 0 = 1)%Z /\
   (0 = 0 \/ 0 = 1)%Z /\ (0 <= 15)%Q) /\
  exists v,
    Trainer.totals [70; 30]%Z [9; 2]%Z [1; 0]%Z [1; 0]%Z [90; 15]%Q !! 1%nat
      = Some v /\
    (4 <= v <= 100)%Q.
Proof.
  split.
  - repeat split; try reflexivity; try lia; try (left; reflexivity);
      discriminate.
  - apply (noise_free_total_in_range _ _ _ _ _ 1 30 2 0 0 15);
      try reflexivity; try lia; try (left; reflexivity); discriminate.
Defined.

Lemma noise_free_total_monotone_witness :
  (([30]%Z : list Z) !! 0%nat = Some 30%Z /\
   ([70]%Z : list Z) !! 0%nat = Some 70%Z /\
   ([2]%Z : list Z) !! 0%nat = Some 2%Z /\
   ([9]%Z : list Z) !! 0%nat = Some 9%Z /\
   ([1]%Z : list Z) !! 0%nat = Some 1%Z /\
   ([0]%Z : list Z) !! 0%nat = Some 0%Z /\
   ([15]%Q : list Q) !! 0%nat = Some 15%Q /\
   ([90]%Q : list Q) !! 0%nat = Some 90%Q /\
   (30 <= 70)%Z /\ (2 <= 9)%Z /\ (15 <= 90)%Q) /\
  exists v v',
    Trainer.totals [30]%Z [2]%Z [1]%Z [0]%Z [15]%Q !! 0%nat = Some v /\
    Trainer.totals [70]%Z [9]%Z [1]%Z [0]%Z [90]%Q !! 0%nat = Some v' /\
    (v <= v')%Q.
Proof.
  split.
  - repeat split; try reflexivity; try lia; discriminate.
  - apply (noise_free_total_monotone _ _ _ _ _ _ _ _ 0 30 70 2 9 1 0 15 90);
      try reflexivity; try lia; discriminate.
Defined.

(** ** The synthesizer: reproducibility and ranges *)

Section MoreSynthesizer.
Import Trainer.
Context `{L : Libs}.

Lemma random_only_ret {A} (a : A) : random_only (ret a).
Proof. intros w1 w2 H. repeat split. exact H. Qed.

Lemma random_only_raise {A} (e : Exn) : random_only (raise (A := A) e).
Proof. intros w1 w2 H. repeat split. exact H. Qed.

Lemma random_only_lift {A} (r : Exn + A) : random_only (lift r).
Proof. intros w1 w2 H. repeat split. exact H. Qed.

Lemma random_only_print (l : Line) : random_only (print l).
Proof. intros w1 w2 H. repeat split. exact H. Qed.

Lemma random_only_with_random {A} (f : RandomState -> A * RandomState) :
  random_only (with_random f).
Proof.
  intros w1 w2 H. rewrite !with_random_run, H. repeat split.
Qed.

Lemma random_only_sized {A} (size : Z)
    (f : nat -> RandomState -> A * RandomState) :
  random_only (sized size f).
Proof.
  unfold sized. destruct (size <? 0)%Z.
  - apply random_only_raise.
  - apply random_only_with_random.
Qed.

Lemma random_only_bind {A B} (m : M World A) (k : A -> M World B) :
  random_only m -> (forall a, random_only (k a)) -> random_only (bind m k).
Proof.
  intros Hm Hk w1 w2 H. unfold bind.
  destruct (Hm w1 w2 H) as (Ho & Hr & Hf).
  destruct (m w1) as [[e1|a1] w1'], (m w2) as [[e2|a2] w2'];
    unfold outcome, final in *; simpl in *; try discriminate.
  - injection Ho as ->. auto.
  - injection Ho as ->. destruct (Hk a2 w1' w2' Hr) as (Ho' & Hr' & Hf').
    unfold outcome, final in *. repeat split; congruence.
Qed.

Ltac random_only_steps :=
  repeat first
    [ apply random_only_ret | apply random_only_raise
    | apply random_only_lift | apply random_only_print
    | apply random_only_with_random | apply random_only_sized
    | apply random_only_bind; [ | intros ? ]
    | progress cbv zeta ].

Lemma random_only_compute_priority_score age severity rural chronic
    waiting_time :
  random_only
    (compute_priority_score age severity rural chronic waiting_time).
Proof. unfold compute_priority_score. random_only_steps. Qed.

(** [generate_training_data] reseeds the global generator, so what it
    returns or raises, and the state it leaves the generator in, are the
    same whatever the generator's state, the output so far and the files
    were; it never touches the file system. *)
Theorem generate_training_data_reproducible (n_samples : Z) (w1 w2 : World) :
  outcome (generate_training_data n_samples w1)
    = outcome (generate_training_data n_samples w2) /\
  np_random (final (generate_training_data n_samples w1))
    = np_random (final (generate_training_data n_samples w2)) /\
  fs (final (generate_training_data n_samples w1)) = fs w1.
Proof.
  unfold generate_training_data.
  rewrite (bind_inr (np_random_seed 42) _ w1 tt
             (set_np_random (random_seed 42) w1)) by reflexivity.
  rewrite (bind_inr (np_random_seed 42) _ w2 tt
             (set_np_random (random_seed 42) w2)) by reflexivity.
  match goal with
  | |- outcome (?rest _) = _ /\ _ =>
      assert (random_only rest) as Hrest
  end.
  { random_only_steps. }
  apply (Hrest (set_np_random (random_seed 42) w1)
               (set_np_random (random_seed 42) w2)).
  reflexivity.
Qed.

Lemma Forall_draws {A} (P : A -> Prop)
    (draw : RandomState -> A * RandomState) n s :
  (forall s', P (draw s').1) -> Forall P (draws draw n s).1.
Proof.
  intros H. revert s. induction n as [|n IH]; intros s; simpl.
  - apply Forall_nil_2.
  - pose proof (H s) as Hs. destruct (draw s) as [x s1]. specialize (IH s1).
    destruct (draws draw n s1) as [xs s2]. simpl in *.
    now apply Forall_cons_2.
Qed.

Lemma Forall_draws_each {P0 A} (P : A -> Prop)
    (draw : P0 -> RandomState -> A * RandomState) ps s :
  (forall p s', P (draw p s').1) -> Forall P (draws_each draw ps s).1.
Proof.
  intros H. revert s. induction ps as [|p ps IH]; intros s; simpl.
  - apply Forall_nil_2.
  - pose proof (H p s) as Hs. destruct (draw p s) as [x s1].
    specialize (IH s1). destruct (draws_each draw ps s1) as [xs s2].
    simpl in *. now apply Forall_cons_2.
Qed.

Lemma Forall_fmap_all {A B} (P : B -> Prop) (f : A -> B) (l : list A) :
  (forall x, P (f x)) -> Forall P (f <$> l).
Proof. intros H. apply Forall_fmap, Forall_forall. intros x _. apply H. Qed.

(** Row [i] of the matrix takes entry [i] of each column. *)
Lemma rows_of_lookup (n : nat) (cols : list (list Q)) (i : nat) :
  (i < n)%nat ->
  rows_of n cols !! i = Some ((fun c => List.nth i c 0%Q) <$> cols).
Proof.
  revert cols i. induction n as [|n IH]; intros cols i Hi; [lia|].
  destruct i as [|i]; simpl.
  - f_equal. apply list_fmap_ext. intros _ [|x c] _; reflexivity.
  - rewrite IH by lia. f_equal. rewrite <- list_fmap_compose.
    apply list_fmap_ext. intros _ [|x c] _; [destruct i|]; reflexivity.
Qed.

(** Truncation keeps a float between two integers (the lower one not
    negative) between them. *)
Lemma py_int_between (x : Q) (a b : Z) :
  (0 <= a)%Z -> (inject_Z a <= x <= inject_Z b)%Q -> (a <= py_int x <= b)%Z.
Proof.
  intros Ha [Hl Hu].
  assert (0 <= x)%Q as H0.
  { apply Qle_trans with (inject_Z a); [|exact Hl].
    change 0%Q with (inject_Z 0). now rewrite <- Zle_Qle. }
  rewrite py_int_floor by exact H0. split.
  - rewrite <- (Qfloor_Z a). now apply Qfloor_resp_le.
  - rewrite <- (Qfloor_Z b). now apply Qfloor_resp_le.
Qed.

(** Every generated sample is within the synthesizer's ranges: age 0
    to 100 and severity 1 to 10 (integers), both flags 0 or 1, waiting
    time 0 to 120, and the label 0 to 100. *)
Theorem generate_training_data_in_range (n : Z) (w : World) :
  (0 < n)%Z ->
  exists X y w',
    generate_training_data n w = (inr (X, y), w') /\
    Forall (fun row =>
      exists a s r c t,
        row = [inject_Z a; inject_Z s; inject_Z r; inject_Z c; t] /\
        (0 <= a <= 100)%Z /\ (1 <= s <= 10)%Z /\
        (r = 0 \/ r = 1)%Z /\ (c = 0 \/ c = 1)%Z /\ (0 <= t <= 120)%Q) X /\
    Forall (fun label => (0 <= label <= 100)%Q) y.
Proof.
  intros Hn. unfold generate_training_data.
  erewrite bind_inr by reflexivity.
  erewrite bind_inr by (apply sized_nonneg; lia).
  erewrite bind_inr by (apply sized_nonneg; lia).
  erewrite bind_inr by (apply sized_nonneg; lia).
  erewrite bind_inr by apply with_random_run.
  erewrite bind_inr by (apply sized_nonneg; lia).
  set (k := Z.to_nat n).
  match goal with
  | |- context [np_column_stack
                  [inject_Z <$> ?age; inject_Z <$> ?severity;
                   inject_Z <$> ?rural; inject_Z <$> ?chronic; ?waiting]] =>
      set (waits := waiting); set (chronics := chronic);
      set (rurals := rural); set (severities := severity); set (ages := age)
  end.
  assert (length ages = k /\ length severities = k /\ length rurals = k /\
          length chronics = k /\ length waits = k)
    as (H1 & H2 & H3 & H4 & H5).
  { subst ages severities rurals chronics waits.
    repeat split; rewrite ?length_fmap; try apply length_draws.
    rewrite length_draws_each, !length_fmap. apply length_draws. }
  assert (Forall (fun a => 0 <= a <= 100)%Z ages) as Fa.
  { apply Forall_fmap_all. intros x.
    apply (py_int_between _ 0 100); [lia|].
    apply (np_clip_bounds _ 0 100). discriminate. }
  assert (Forall (fun s => 1 <= s <= 10)%Z severities) as Fs.
  { apply Forall_fmap_all. intros x.
    apply (py_int_between _ 1 10); [lia|].
    apply (np_clip_bounds _ 1 10). discriminate. }
  assert (Forall (fun r => r = 0 \/ r = 1)%Z rurals) as Fr.
  { apply Forall_draws. intros s'.
    destruct (random_binomial1 0.3 s') as [[|] ?]; simpl; auto. }
  assert (Forall (fun c => c = 0 \/ c = 1)%Z chronics) as Fc.
  { apply Forall_draws_each. intros p s'.
    destruct (random_binomial1 p s') as [[|] ?]; simpl; auto. }
  assert (Forall (fun t => 0 <= t <= 120)%Q waits) as Fw.
  { apply Forall_fmap_all. intros x.
    apply (np_clip_bounds _ 0 120). discriminate. }
  erewrite bind_inr
    by (unfold lift; rewrite (np_column_stack_5 _ _ _ _ _ k);
        [reflexivity
        | first [assumption | rewrite length_fmap; assumption] ..]).
  erewrite bind_inr by (apply compute_priority_score_run; lia).
  match goal with
  | |- context [ndarray_min ?y] =>
      set (labels := y);
      assert (length labels = k) as Hy
  end.
  { subst labels.
    rewrite length_fmap, length_zip_with, length_totals, length_draws
      by lia.
    lia. }
  destruct (ndarray_min_nonempty labels) as [lo Hlo]; [rewrite Hy; lia|].
  destruct (ndarray_max_nonempty labels) as [hi Hhi]; [rewrite Hy; lia|].
  erewrite bind_inr by reflexivity.
  erewrite bind_inr by reflexivity.
  rewrite Hlo, Hhi.
  do 3 eexists. split; [reflexivity|]. split.
  - apply Forall_lookup. intros i row Hrow.
    assert (i < k)%nat as Hi.
    { apply lookup_lt_Some in Hrow. now rewrite length_rows_of in Hrow. }
    rewrite rows_of_lookup in Hrow by exact Hi. injection Hrow as <-.
    destruct (lookup_lt_is_Some_2 ages i) as [a Ha]; [lia|].
    destruct (lookup_lt_is_Some_2 severities i) as [s Hs]; [lia|].
    destruct (lookup_lt_is_Some_2 rurals i) as [r Hr]; [lia|].
    destruct (lookup_lt_is_Some_2 chronics i) as [c Hc]; [lia|].
    destruct (lookup_lt_is_Some_2 waits i) as [t Ht]; [lia|].
    exists a, s, r, c, t. split.
    + simpl.
      rewrite (nth_lookup_Some (inject_Z <$> ages) i 0%Q (inject_Z a))
        by (rewrite list_lookup_fmap, Ha; reflexivity).
      rewrite (nth_lookup_Some (inject_Z <$> severities) i 0%Q (inject_Z s))
        by (rewrite list_lookup_fmap, Hs; reflexivity).
      rewrite (nth_lookup_Some (inject_Z <$> rurals) i 0%Q (inject_Z r))
        by (rewrite list_lookup_fmap, Hr; reflexivity).
      rewrite (nth_lookup_Some (inject_Z <$> chronics) i 0%Q (inject_Z c))
        by (rewrite list_lookup_fmap, Hc; reflexivity).
      rewrite (nth_lookup_Some waits i 0%Q t) by exact Ht.
      reflexivity.
    + split; [exact (proj1 (Forall_lookup _ _) Fa i a Ha)|].
      split; [exact (proj1 (Forall_lookup _ _) Fs i s Hs)|].
      split; [exact (proj1 (Forall_lookup _ _) Fr i r Hr)|].
      split; [exact (proj1 (Forall_lookup _ _) Fc i c Hc)|].
      exact (proj1 (Forall_lookup _ _) Fw i t Ht).
  - subst labels. apply Forall_fmap_all. intros x.
    apply (np_clip_bounds _ 0 100). discriminate.
Qed.

End MoreSynthesizer.

Lemma generate_training_data_positive_witness :
  (0 < 3)%Z /\
  exists X y lo hi w',
    Trainer.generate_training_data 3 (InMemory.fitting_world ∅)
      = (inr (X, y), w') /\
    length X = Z.to_nat 3 /\ length y = Z.to_nat 3 /\
    Forall (fun row => length row = 5%nat) X /\
    Trainer.ndarray_min y = inr lo /\ Trainer.ndarray_max y = inr hi /\
    stdout w' = stdout (InMemory.fitting_world ∅) ++
                [LineGenerated 3;
                 LineFeatures ["age"; "severity"; "rural"; "chronic";
                               "waiting_time"];
                 LineTargetRange lo hi] /\
    fs w' = fs (InMemory.fitting_world ∅).
Proof.
  split; [lia|].
  apply (@generate_training_data_positive InMemory.fitting). lia.
Defined.

Lemma generate_training_data_in_range_witness :
  (0 < 3)%Z /\
  exists X y w',
    Trainer.generate_training_data 3 (InMemory.fitting_world ∅)
      = (inr (X, y), w') /\
    Forall (fun row =>
      exists a s r c t,
        row = [inject_Z a; inject_Z s; inject_Z r; inject_Z c; t] /\
        (0 <= a <= 100)%Z /\ (1 <= s <= 10)%Z /\
        (r = 0 \/ r = 1)%Z /\ (c = 0 \/ c = 1)%Z /\ (0 <= t <= 120)%Q) X /\
    Forall (fun label => (0 <= label <= 100)%Q) y.
Proof.
  split; [lia|].
  apply (@generate_training_data_in_range InMemory.fitting). lia.
Defined.

(** ** The predictor: importances, consistency, training, persistence *)

Section MoreLifeCycle.
Import Predictor Trainer Main.
Context `{L : Libs}.

Lemma dict_zip_acc_notin (names : list string) (values : list Q)
    (d : gmap string Q) (k : string) :
  k ∉ names ->
  fold_left (fun d kv => <[fst kv := snd kv]> d) (combine names values) d !! k
  = d !! k.
Proof.
  revert values d. induction names as [|n ns IH]; intros values d Hk;
    [reflexivity|].
  destruct values as [|v vs]; [reflexivity|]. simpl.
  apply not_elem_of_cons in Hk as [Hne Hk].
  rewrite IH by exact Hk. now apply lookup_insert_ne.
Qed.

Lemma dict_zip_acc_lookup (names : list string) (values : list Q)
    (d : gmap string Q) (i : nat) (k : string) :
  NoDup names -> names !! i = Some k ->
  fold_left (fun d kv => <[fst kv := snd kv]> d) (combine names values) d !! k
  = match values !! i with Some v => Some v | None => d !! k end.
Proof.
  revert values d i. induction names as [|n ns IH]; intros values d i Hnd Hi;
    [discriminate|].
  apply NoDup_cons in Hnd as [Hn Hnd].
  destruct values as [|v vs]; [reflexivity|]. simpl.
  destruct i as [|i]; simpl in *.
  - injection Hi as ->. rewrite dict_zip_acc_notin by exact Hn.
    apply lookup_insert_eq.
  - rewrite (IH vs _ i Hnd Hi). destruct (vs !! i); [reflexivity|].
    apply lookup_insert_ne. intros ->. apply Hn.
    eapply list_elem_of_lookup_2, Hi.
Qed.

(** [dict(zip(names, values))] with distinct names maps the name at
    each position to the value at that position, and has no entry for
    a name beyond the values. *)
Lemma dict_zip_lookup (names : list string) (values : list Q) (i : nat)
    (k : string) :
  NoDup names -> names !! i = Some k ->
  dict_zip names values !! k = values !! i.
Proof.
  intros Hnd Hi. unfold dict_zip.
  rewrite (dict_zip_acc_lookup names values ∅ i k Hnd Hi).
  destruct (values !! i); [reflexivity | apply lookup_empty].
Qed.

Lemma FEATURE_NAMES_NoDup : NoDup FEATURE_NAMES.
Proof. apply (bool_decide_unpack _). vm_compute. exact I. Qed.

(** [get_feature_importance] answers [None] for a predictor that is not
    loaded; for one made by [PriorityPredictor()] and loaded with a
    model that has importances, it returns the dictionary giving each
    of the five feature names, in the order age, severity, rural,
    chronic, waiting_time, the importance at its position; it never
    raises and changes nothing. *)
Theorem get_feature_importance_by_name (o : Obj) :
  (is_loaded (self o) = false -> get_feature_importance o = (inr None, o)) /\
  (forall m importances,
     is_loaded (self o) = true -> model (self o) = Some m ->
     feature_importances_ m = Some importances ->
     feature_names (self o) = FEATURE_NAMES ->
     exists d,
       get_feature_importance o = (inr (Some d), o) /\
       forall i name, FEATURE_NAMES !! i = Some name ->
                      d !! name = importances !! i).
Proof.
  destruct o as [[mo lo fo] w]. simpl. split.
  - intros ->. reflexivity.
  - intros m importances -> -> Hi ->.
    unfold get_feature_importance, bind, gets. simpl. rewrite Hi.
    eexists. split; [reflexivity|]. intros i name Hname.
    apply dict_zip_lookup; [apply FEATURE_NAMES_NoDup | exact Hname].
Qed.

(** [train_model] up to the assignment of the model: when the split,
    the fit, the two metrics and the importances are there, what is
    left to run is the creation of the directory and the save, on a
    predictor that already holds the new model. *)
Lemma train_model_head (X : list Row) (y : list Q) (model_path : string)
    (o : Obj) X_train X_test y_train y_test m mse r2 importances :
  train_test_split X y = inr (X_train, X_test, y_train, y_test) ->
  XGBRegressor_fit X_train y_train X_test y_test = inr m ->
  mean_squared_error y_test (model_predict m X_test) = inr mse ->
  r2_score y_test (model_predict m X_test) = inr r2 ->
  feature_importances_ m = Some importances ->
  exists w,
    fs w = fs (world o) /\
    train_model X y model_path o
    = (in_world (on_fs (os_makedirs_exist_ok (os_path_dirname model_path))) ;;
       save_model model_path ;;
       ret {| Trainer.mse := mse; Trainer.r2 := r2;
              feature_importance :=
                dict_zip ["age"; "severity"; "rural"; "chronic";
                          "waiting_time"] importances |})
        (mkObj {| model := Some m; is_loaded := true;
                  feature_names := feature_names (self o) |} w).
Proof.
  intros Hsplit Hfit Hmse Hr2 Himp. unfold train_model.
  erewrite bind_inr by reflexivity.
  rewrite Hsplit. erewrite bind_inr by reflexivity. cbv beta iota.
  rewrite Hfit. erewrite bind_inr by reflexivity.
  rewrite Hmse. erewrite bind_inr by reflexivity.
  rewrite Hr2. erewrite bind_inr by reflexivity.
  erewrite bind_inr by reflexivity.
  erewrite bind_inr by reflexivity.
  rewrite Himp. erewrite bind_inr by reflexivity.
  erewrite bind_inr by reflexivity.
  erewrite bind_inr by (rewrite in_world_run, print_all_run; reflexivity).
  erewrite bind_inr by reflexivity.
  erewrite bind_inr by reflexivity.
  eexists. split; [|reflexivity]. reflexivity.
Qed.

(** The creation of the directory and the save, step by step. *)
Lemma persist_run {A} (d model_path : string) (v : A)
    (p : PriorityPredictor) (m : Model) (w : World) :
  model p = Some m ->
  (in_world (on_fs (os_makedirs_exist_ok d)) ;;
   save_model model_path ;; ret v) (mkObj p w)
  = match os_makedirs_exist_ok d (fs w) with
    | (inl e, fs1) => (inl e, mkObj p (set_fs fs1 w))
    | (inr _, fs1) =>
        match joblib_dump m model_path fs1 with
        | (inl e, fs2) => (inl e, mkObj p (set_fs fs2 w))
        | (inr _, fs2) =>
            (inr v,
             mkObj p {| fs := fs2; np_random := np_random w;
                        stdout := stdout w ++ [LineModelSaved model_path] |})
        end
    end.
Proof.
  destruct p as [mo lo fo]. simpl. intros ->.
  unfold save_model. unfold bind, in_world, on_fs, zoom, gets, ret. simpl.
  destruct (os_makedirs_exist_ok d (fs w)) as [[e|[]] fs1]; [reflexivity|].
  simpl. destruct (joblib_dump m model_path fs1) as [[e|[]] fs2]; reflexivity.
Qed.

(** Either the split, the fit, the metrics and the importances are all
    there, or [train_model] raises with the predictor and the files as
    they were. *)
Lemma train_model_early (X : list Row) (y : list Q) (model_path : string)
    (o : Obj) :
  (exists X_train X_test y_train y_test m mse r2 importances,
     train_test_split X y = inr (X_train, X_test, y_train, y_test) /\
     XGBRegressor_fit X_train y_train X_test y_test = inr m /\
     mean_squared_error y_test (model_predict m X_test) = inr mse /\
     r2_score y_test (model_predict m X_test) = inr r2 /\
     feature_importances_ m = Some importances) \/
  (exists e,
     outcome (train_model X y model_path o) = inl e /\
     self (final (train_model X y model_path o)) = self o /\
     fs (world (final (train_model X y model_path o))) = fs (world o)).
Proof.
  destruct (train_test_split X y)
    as [e|[[[X_train X_test] y_train] y_test]] eqn:Hsplit.
  { right. exists e. unfold train_model.
    erewrite bind_inr by reflexivity. rewrite Hsplit.
    now erewrite bind_inl by reflexivity. }
  destruct (XGBRegressor_fit X_train y_train X_test y_test) as [e|m] eqn:Hfit.
  { right. exists e. unfold train_model.
    erewrite bind_inr by reflexivity. rewrite Hsplit.
    erewrite bind_inr by reflexivity. cbv beta iota. rewrite Hfit.
    now erewrite bind_inl by reflexivity. }
  destruct (mean_squared_error y_test (model_predict m X_test))
    as [e|mse] eqn:Hmse.
  { right. exists e. unfold train_model.
    erewrite bind_inr by reflexivity. rewrite Hsplit.
    erewrite bind_inr by reflexivity. cbv beta iota. rewrite Hfit.
    erewrite bind_inr by reflexivity. rewrite Hmse.
    now erewrite bind_inl by reflexivity. }
  destruct (r2_score y_test (model_predict m X_test)) as [e|r2] eqn:Hr2.
  { right. exists e. unfold train_model.
    erewrite bind_inr by reflexivity. rewrite Hsplit.
    erewrite bind_inr by reflexivity. cbv beta iota. rewrite Hfit.
    erewrite bind_inr by reflexivity. rewrite Hmse.
    erewrite bind_inr by reflexivity. rewrite Hr2.
    now erewrite bind_inl by reflexivity. }
  destruct (feature_importances_ m) as [importances|] eqn:Himp.
  2:{ right. eexists. unfold train_model.
      erewrite bind_inr by reflexivity. rewrite Hsplit.
      erewrite bind_inr by reflexivity. cbv beta iota. rewrite Hfit.
      erewrite bind_inr by reflexivity. rewrite Hmse.
      erewrite bind_inr by reflexivity. rewrite Hr2.
      erewrite bind_inr by reflexivity.
      erewrite bind_inr by reflexivity.
      erewrite bind_inr by reflexivity. rewrite Himp.
      now erewrite bind_inl by reflexivity. }
  left. exists X_train, X_test, y_train, y_test, m, mse, r2, importances.
  auto.
Qed.

(** When [train_model] returns, the metrics it returns are those of the
    model fitted on the training part of the split, measured on the
    held-out part; the predictor is loaded with that model; and the
    model has been written to [model_path] after the directory was
    made. *)
Theorem train_model_returns_fitted_model (X : list Row) (y : list Q)
    (model_path : string) (o : Obj) (metrics : Metrics) :
  outcome (train_model X y model_path o) = inr metrics ->
  exists X_train X_test y_train y_test m importances fs1,
    train_test_split X y = inr (X_train, X_test, y_train, y_test) /\
    XGBRegressor_fit X_train y_train X_test y_test = inr m /\
    mean_squared_error y_test (model_predict m X_test) = inr (mse metrics) /\
    r2_score y_test (model_predict m X_test) = inr (r2 metrics) /\
    feature_importances_ m = Some importances /\
    feature_importance metrics
      = dict_zip ["age"; "severity"; "rural"; "chronic"; "waiting_time"]
          importances /\
    self (final (train_model X y model_path o))
      = {| model := Some m; is_loaded := true;
           feature_names := feature_names (self o) |} /\
    os_makedirs_exist_ok (os_path_dirname model_path) (fs (world o))
      = (inr tt, fs1) /\
    joblib_dump m model_path fs1
      = (inr tt, fs (world (final (train_model X y model_path o)))).
Proof.
  intros H.
  destruct (train_model_early X y model_path o)
    as [(X_train & X_test & y_train & y_test & m & mse & r2 & importances
         & Hsplit & Hfit & Hmse & Hr2 & Himp) | (e & He & _)];
    [|congruence].
  destruct (train_model_head X y model_path o _ _ _ _ _ _ _ _
              Hsplit Hfit Hmse Hr2 Himp) as (w & Hw & Hrun).
  rewrite Hrun in *. rewrite (persist_run _ _ _ _ m) in * by reflexivity.
  rewrite Hw in *.
  destruct (os_makedirs_exist_ok (os_path_dirname model_path) (fs (world o)))
    as [[e|[]] fs1]; [discriminate H|].
  destruct (joblib_dump m model_path fs1) as [[e|[]] fs2] eqn:Hdump;
    [discriminate H|].
  injection H as <-.
  exists X_train, X_test, y_train, y_test, m, importances, fs1.
  repeat split; assumption.
Qed.

(** The swap is not undone when persisting fails: if the directory
    cannot be made or the dump raises, [train_model] raises that error
    with the predictor already loaded with the new model. *)
Theorem train_model_save_failure_keeps_new_model (X : list Row) (y : list Q)
    (model_path : string) (o : Obj)
    X_train X_test y_train y_test m mse r2 importances e fs' :
  train_test_split X y = inr (X_train, X_test, y_train, y_test) ->
  XGBRegressor_fit X_train y_train X_test y_test = inr m ->
  mean_squared_error y_test (model_predict m X_test) = inr mse ->
  r2_score y_test (model_predict m X_test) = inr r2 ->
  feature_importances_ m = Some importances ->
  (os_makedirs_exist_ok (os_path_dirname model_path) (fs (world o))
     = (inl e, fs') \/
   exists fs1,
     os_makedirs_exist_ok (os_path_dirname model_path) (fs (world o))
       = (inr tt, fs1) /\
     joblib_dump m model_path fs1 = (inl e, fs')) ->
  outcome (train_model X y model_path o) = inl e /\
  self (final (train_model X y model_path o))
    = {| model := Some m; is_loaded := true;
         feature_names := feature_names (self o) |} /\
  fs (world (final (train_model X y model_path o))) = fs'.
Proof.
  intros Hsplit Hfit Hmse Hr2 Himp Hfail.
  destruct (train_model_head X y model_path o _ _ _ _ _ _ _ _
              Hsplit Hfit Hmse Hr2 Himp) as (w & Hw & Hrun).
  rewrite Hrun. rewrite (persist_run _ _ _ _ m) by reflexivity.
  rewrite Hw.
  destruct Hfail as [-> | (fs1 & -> & ->)]; repeat split.
Qed.

End MoreLifeCycle.

Lemma train_model_returns_fitted_model_witness :
  let o := @Predictor.mkObj InMemory.fitting Predictor.__init__
             (InMemory.fitting_world ∅) in
  let run := Trainer.train_model InMemory.samples InMemory.labels
               "model/trained_model.joblib" o in
  exists metrics,
    outcome run = inr metrics /\
    exists X_train X_test y_train y_test m importances fs1,
      @train_test_split InMemory.fitting InMemory.samples InMemory.labels
        = inr (X_train, X_test, y_train, y_test) /\
      @XGBRegressor_fit InMemory.fitting X_train y_train X_test y_test
        = inr m /\
      @mean_squared_error InMemory.fitting y_test (model_predict m X_test)
        = inr (Trainer.mse metrics) /\
      @r2_score InMemory.fitting y_test (model_predict m X_test)
        = inr (Trainer.r2 metrics) /\
      feature_importances_ m = Some importances /\
      Trainer.feature_importance metrics
        = Predictor.dict_zip
            ["age"; "severity"; "rural"; "chronic"; "waiting_time"]
            importances /\
      Predictor.self (final run)
        = {| Predictor.model := Some m; Predictor.is_loaded := true;
             Predictor.feature_names :=
               Predictor.feature_names (Predictor.self o) |} /\
      @os_makedirs_exist_ok InMemory.fitting
        (@os_path_dirname InMemory.fitting "model/trained_model.joblib")
        (fs (Predictor.world o)) = (inr tt, fs1) /\
      @joblib_dump InMemory.fitting m "model/trained_model.joblib" fs1
        = (inr tt, fs (Predictor.world (final run))).
Proof.
  eexists. split; [reflexivity|].
  apply (@train_model_returns_fitted_model InMemory.fitting). reflexivity.
Defined.

Lemma train_model_save_failure_keeps_new_model_witness :
  let o := @Predictor.mkObj InMemory.fitting Predictor.__init__
             (InMemory.fitting_world ∅) in
  let run := Trainer.train_model InMemory.samples InMemory.labels
               "trained_model.joblib" o in
  let e := PyError "FileNotFoundError"
             "[Errno 2] No such file or directory: ''" in
  exists X_train X_test y_train y_test m mse r2 importances,
    (@train_test_split InMemory.fitting InMemory.samples InMemory.labels
       = inr (X_train, X_test, y_train, y_test) /\
     @XGBRegressor_fit InMemory.fitting X_train y_train X_test y_test
       = inr m /\
     @mean_squared_error InMemory.fitting y_test (model_predict m X_test)
       = inr mse /\
     @r2_score InMemory.fitting y_test (model_predict m X_test) = inr r2 /\
     feature_importances_ m = Some importances /\
     @os_makedirs_exist_ok InMemory.fitting
       (@os_path_dirname InMemory.fitting "trained_model.joblib")
       (fs (Predictor.world o)) = (inl e, ∅)) /\
    outcome run = inl e /\
    Predictor.self (final run)
      = {| Predictor.model := Some m; Predictor.is_loaded := true;
           Predictor.feature_names :=
             Predictor.feature_names (Predictor.self o) |} /\
    fs (Predictor.world (final run)) = ∅.
Proof.
  do 8 eexists. split.
  - repeat split; reflexivity.
  - eapply (@train_model_save_failure_keeps_new_model InMemory.fitting);
      [reflexivity .. | left; reflexivity].
Defined.

(** ** Consistency of the predictor and the endpoints *)

Section Service.
Import Predictor Trainer Main.
Context `{L : Libs}.

Lemma train_model_keeps_consistent (X : list Row) (y : list Q)
    (model_path : string) (o : Obj) :
  consistent (self o) ->
  consistent (self (final (train_model X y model_path o))).
Proof.
  intros Hc.
  destruct (train_model_cases X y model_path o)
    as [(e & _ & -> & _) | (m & ->)]; [exact Hc|].
  intros _. discriminate.
Qed.

(** [startup_event], step by step: the global is bound to a fresh
    predictor, which loads the model file when there is one and is
    trained on 5000 synthetic samples otherwise. *)
Lemma startup_event_run (a : App) :
  startup_event a
  = let w0 := {| fs := fs (app_world a); np_random := np_random (app_world a);
                 stdout := stdout (app_world a) ++ [LineStarting] |} in
    if os_path_exists trained_model_path (fs (app_world a)) then
      match load_model trained_model_path
              (mkObj __init__
                 {| fs := fs w0; np_random := np_random w0;
                    stdout := stdout w0 ++ [LineLoadingExisting] |}) with
      | (inl e, o) => (inl e, mkApp (Some (self o)) (world o))
      | (inr _, o) =>
          (inr tt,
           mkApp (Some (self o))
             {| fs := fs (world o); np_random := np_random (world o);
                stdout := stdout (world o) ++ [LineReady] |})
      end
    else
      match generate_training_data 5000
              {| fs := fs w0; np_random := np_random w0;
                 stdout := stdout w0 ++ [LineNoExisting] |} with
      | (inl e, w1) => (inl e, mkApp (Some __init__) w1)
      | (inr (X, y), w1) =>
          match train_model X y trained_model_path (mkObj __init__ w1) with
          | (inl e, o) => (inl e, mkApp (Some (self o)) (world o))
          | (inr _, o) =>
              (inr tt,
               mkApp (Some (self o))
                 {| fs := fs (world o); np_random := np_random (world o);
                    stdout := stdout (world o) ++ [LineReady] |})
          end
      end.
Proof.
  unfold startup_event.
  erewrite bind_inr by reflexivity.
  erewrite bind_inr by reflexivity.
  cbv zeta.
  erewrite bind_inr by reflexivity.
  cbn [fs app_world set_app_world].
  destruct (os_path_exists trained_model_path (fs (app_world a))).
  - unfold bind at 1. erewrite bind_inr by reflexivity.
    unfold on_predictor, set_app_world. cbn [predictor app_world].
    destruct (load_model trained_model_path _) as [[e|[]] o1]; reflexivity.
  - unfold bind at 1. erewrite bind_inr by reflexivity.
    unfold bind at 1, app_in_world at 1, zoom, set_app_world.
    cbn [predictor app_world].
    destruct (generate_training_data 5000 _) as [[e|[X y]] w1];
      [reflexivity|].
    unfold bind, on_predictor, ret. cbn [predictor app_world].
    destruct (train_model X y trained_model_path (mkObj __init__ w1))
      as [[e|v] o1]; reflexivity.
Qed.

(** The flag [is_loaded] is never set on a predictor without a model:
    this holds of [PriorityPredictor()], after [load_model] whatever its
    outcome, is kept by [train_model], and holds of the predictor the
    global is bound to after [retrain_model] and after
    [startup_event]. *)
Theorem loaded_flag_implies_model :
  consistent __init__ /\
  (forall model_path o,
     consistent (self (final (load_model model_path o)))) /\
  (forall X y model_path o,
     consistent (self o) ->
     consistent (self (final (train_model X y model_path o)))) /\
  (forall a, exists p,
     predictor (final (retrain_model a)) = Some p /\ consistent p) /\
  (forall a, exists p,
     predictor (final (startup_event a)) = Some p /\ consistent p).
Proof.
  assert (consistent __init__) as Hinit by (intros H; discriminate H).
  split; [exact Hinit|]. split; [|split; [|split]].
  - intros model_path o. rewrite load_model_run.
    destruct (joblib_load model_path (fs (world o))); intros H; simpl in *;
      discriminate.
  - exact train_model_keeps_consistent.
  - intros a. rewrite retrain_model_run.
    destruct (generate_training_data 5000 _) as [[e|[X y]] w1]; [eauto|].
    pose proof (train_model_keeps_consistent X y trained_model_path
                  (mkObj __init__ w1) Hinit) as Hc.
    destruct (train_model X y trained_model_path (mkObj __init__ w1))
      as [[e|v] o1]; eauto.
  - intros a. rewrite startup_event_run. cbv zeta.
    destruct (os_path_exists trained_model_path (fs (app_world a))).
    + match goal with
      | |- context [load_model ?path ?o] =>
          pose proof (load_model_run path o) as Hrun;
          destruct (joblib_load path (fs (world o)));
          rewrite Hrun
      end; eexists; (split; [reflexivity|]); intros H; simpl in *;
        discriminate.
    + destruct (generate_training_data 5000 _) as [[e|[X y]] w1]; [eauto|].
      pose proof (train_model_keeps_consistent X y trained_model_path
                    (mkObj __init__ w1) Hinit) as Hc.
      destruct (train_model X y trained_model_path (mkObj __init__ w1))
        as [[e|v] o1]; eauto.
Qed.


(** With an existing model file [startup_event] loads it and does not
    train: the generator and the files are untouched, and the service
    ends loaded with the file's model, or, when the load fails, raises
    with an unloaded predictor. *)
Theorem startup_event_loads_existing_model (a : App) :
  os_path_exists trained_model_path (fs (app_world a)) = true ->
  np_random (app_world (final (startup_event a))) = np_random (app_world a) /\
  fs (app_world (final (startup_event a))) = fs (app_world a) /\
  match joblib_load trained_model_path (fs (app_world a)) with
  | inr m =>
      outcome (startup_event a) = inr tt /\
      predictor (final (startup_event a))
      = Some {| model := Some m; is_loaded := true;
                feature_names := FEATURE_NAMES |}
  | inl e =>
      outcome (startup_event a)
      = inl (PyError "Exception" ("Failed to load model: " +:+ str e)) /\
      predictor (final (startup_event a)) = Some __init__
  end.
Proof.
  intros Hex. rewrite startup_event_run. cbv zeta. rewrite Hex.
  rewrite load_model_run. cbn [fs world].
  destruct (joblib_load trained_model_path (fs (app_world a)));
    repeat split.
Qed.

(** When [startup_event] returns, the service holds a predictor that is
    loaded with a model. *)
Theorem startup_event_ends_loaded (a : App) :
  outcome (startup_event a) = inr tt ->
  exists m,
    predictor (final (startup_event a))
    = Some {| model := Some m; is_loaded := true;
              feature_names := FEATURE_NAMES |}.
Proof.
  rewrite startup_event_run. cbv zeta.
  destruct (os_path_exists trained_model_path (fs (app_world a))).
  - rewrite load_model_run. cbn [fs world].
    destruct (joblib_load trained_model_path (fs (app_world a))) as [e|m];
      [discriminate|]. intros _. exists m. reflexivity.
  - destruct (generate_training_data 5000 _) as [[e|[X y]] w1];
      [discriminate|].
    destruct (train_model_cases X y trained_model_path (mkObj __init__ w1))
      as [(e & He & _) | (m & Hself)];
      destruct (train_model X y trained_model_path (mkObj __init__ w1))
        as [[e'|v] o1]; unfold outcome, final in *; simpl in *;
      try discriminate.
    intros _. exists m. now rewrite Hself.
Qed.

(** [retrain_model] never looks at the predictor the global was bound
    to: its result and the state it leaves are the same from any
    previous predictor, or from none. *)
Theorem retrain_model_ignores_previous_predictor (a : App)
    (previous : option PriorityPredictor) :
  retrain_model {| predictor := previous; app_world := app_world a |}
  = retrain_model a.
Proof. rewrite !retrain_model_run. reflexivity. Qed.

(** The endpoints raise nothing but [HTTPException], and its detail
    carries the message of the error that was caught.  [/retrain]
    raises only status 500 with "Retraining failed: " followed by
    [str(e)] of the error [generate_training_data] or [train_model]
    raised.  [/predict] raises 503 only where no predictor is bound or
    its flag is off, and otherwise only 500 with "Prediction failed: "
    followed by [str(e)] of the error [predict] raised. *)
Theorem endpoints_raise_only_http_exceptions (a : App)
    (patient : PatientData) (e : Exn) :
  (outcome (retrain_model a) = inl e ->
   exists e0,
     e = HTTPException 500 ("Retraining failed: " +:+ str e0) /\
     let w0 := {| fs := fs (app_world a);
                  np_random := np_random (app_world a);
                  stdout := stdout (app_world a) ++ [LineRetraining] |} in
     (outcome (generate_training_data 5000 w0) = inl e0 \/
      exists X y w1,
        generate_training_data 5000 w0 = (inr (X, y), w1) /\
        outcome (train_model X y trained_model_path (mkObj __init__ w1))
        = inl e0)) /\
  (outcome (predict_priority patient a) = inl e ->
   (e = HTTPException 503 "ML model not loaded. Please try again later." /\
    (predictor a = None \/
     exists p, predictor a = Some p /\ is_loaded p = false)) \/
   exists p e0,
     predictor a = Some p /\ is_loaded p = true /\
     outcome (predict (age patient) (severity patient) (rural patient)
                (chronic patient) (waiting_time patient)
                (mkObj p (app_world a))) = inl e0 /\
     e = HTTPException 500 ("Prediction failed: " +:+ str e0)).
Proof.
  split.
  - rewrite retrain_model_run. cbv zeta.
    destruct (generate_training_data 5000 _) as [[e0|[X y]] w1] eqn:Hgen.
    + intros [= <-]. exists e0. split; [reflexivity|]. left. reflexivity.
    + destruct (train_model X y trained_model_path (mkObj __init__ w1))
        as [[e0|v] o1] eqn:Htrain; [|discriminate].
      intros [= <-]. exists e0. split; [reflexivity|]. right.
      exists X, y, w1. split; [reflexivity|]. now rewrite Htrain.
  - unfold predict_priority, bind, gets, try_except, on_predictor, raise, ret.
    destruct a as [[p|] w]; simpl; [|intros [= <-]; auto].
    destruct (is_loaded p) eqn:Hl; simpl; [|intros [= <-]; left; eauto].
    destruct (predict _ _ _ _ _ _) as [[e0|r] o1] eqn:Hp; simpl;
      [|discriminate].
    intros [= <-]. right. exists p, e0. rewrite Hp. auto.
Qed.

(** [/health] never raises and changes nothing, and it reports
    [model_loaded = False] exactly when [/predict] would answer 503. *)
Theorem health_check_agrees_with_predict (a : App) (patient : PatientData) :
  exists h,
    health_check a = (inr h, a) /\
    status h = "healthy" /\
    (model_loaded h = false <->
     outcome (predict_priority patient a)
     = inl (HTTPException 503 "ML model not loaded. Please try again later.")).
Proof.
  unfold health_check, predict_priority, bind, gets, try_except, on_predictor,
    raise, ret.
  destruct a as [[p|] w]; simpl.
  - destruct (is_loaded p); simpl.
    + eexists. split; [reflexivity|]. split; [reflexivity|]. simpl.
      split; [discriminate|].
      destruct (predict _ _ _ _ _ _) as [[e0|r] o1]; simpl; discriminate.
    + eexists. split; [reflexivity|]. split; [reflexivity|]. simpl. tauto.
  - eexists. split; [reflexivity|]. split; [reflexivity|]. simpl. tauto.
Qed.

(** With a loaded predictor [/predict] returns what [predict] returns
    for the patient's five fields, a score between 0 and 100 with its
    reason, and changes nothing. *)
Theorem predict_priority_returns_prediction (a : App) (patient : PatientData)
    (p : PriorityPredictor) (m : Model) :
  predictor a = Some p -> is_loaded p = true -> model p = Some m ->
  exists r,
    predict_priority patient a = (inr r, a) /\
    outcome (predict (age patient) (severity patient) (rural patient)
               (chronic patient) (waiting_time patient)
               (mkObj p (app_world a))) = inr r /\
    (0 <= priority_score r <= 100)%Z.
Proof.
  destruct a as [pa w]. simpl. intros -> Hl Hm.
  unfold predict_priority, bind, gets, try_except, on_predictor, ret. simpl.
  rewrite Hl. simpl.
  rewrite (predict_loaded (mkObj p w) m) by assumption.
  eexists. split; [reflexivity|]. split; [reflexivity|]. simpl.
  apply py_int_bounds, (np_clip_bounds _ 0 100). discriminate.
Qed.

(** Save then load: when joblib gives back from a path the model that
    was dumped to it, a fresh predictor that loads what a loaded one
    has saved predicts exactly as that one. *)
Theorem save_then_load_predicts_alike (model_path : string) (o : Obj)
    (m : Model) :
  model (self o) = Some m -> is_loaded (self o) = true ->
  (forall fs1 fs2, joblib_dump m model_path fs1 = (inr tt, fs2) ->
                   joblib_load model_path fs2 = inr m) ->
  outcome (save_model model_path o) = inr tt ->
  outcome (load_model model_path
             (mkObj __init__ (world (final (save_model model_path o)))))
    = inr tt /\
  forall age severity rural chronic waiting_time,
    outcome (predict age severity rural chronic waiting_time
               (final (load_model model_path
                         (mkObj __init__
                            (world (final (save_model model_path o)))))))
    = outcome (predict age severity rural chronic waiting_time o).
Proof.
  destruct o as [[mo lo fo] w]. simpl. intros -> -> Hjoblib.
  unfold save_model. unfold bind, gets, in_world, on_fs, zoom. simpl.
  destruct (joblib_dump m model_path (fs w)) as [[e|[]] fs2] eqn:Hdump;
    simpl; [discriminate|]. intros _.
  rewrite load_model_run. simpl. rewrite (Hjoblib _ _ Hdump).
  split; [reflexivity|]. intros. reflexivity.
Qed.

End Service.

Lemma get_feature_importance_by_name_witness :
  let o := @Predictor.mkObj InMemory.fitting
             (InMemory.loaded_with InMemory.ground_truth_model)
             (InMemory.fitting_world ∅) in
  exists d,
    Predictor.get_feature_importance o = (inr (Some d), o) /\
    forall i name, Predictor.FEATURE_NAMES !! i = Some name ->
                   d !! name = ([0.2; 0.4; 0.15; 0.15; 0.1]%Q : list Q) !! i.
Proof.
  apply (proj2 (@get_feature_importance_by_name InMemory.fitting
                  (@Predictor.mkObj InMemory.fitting
                     (InMemory.loaded_with InMemory.ground_truth_model)
                     (InMemory.fitting_world ∅)))
           InMemory.ground_truth_model);
    reflexivity.
Defined.


Lemma startup_event_loads_existing_model_witness :
  let a := InMemory.service_over InMemory.with_model_file in
  @os_path_exists InMemory.fitting (@trained_model_path InMemory.fitting)
    (fs (Main.app_world a)) = true /\
  np_random (Main.app_world (final (Main.startup_event a)))
    = np_random (Main.app_world a) /\
  fs (Main.app_world (final (Main.startup_event a)))
    = fs (Main.app_world a) /\
  outcome (Main.startup_event a) = inr tt /\
  Main.predictor (final (Main.startup_event a))
  = Some (InMemory.loaded_with InMemory.ground_truth_model).
Proof.
  split; [reflexivity|].
  apply (@startup_event_loads_existing_model InMemory.fitting
           (InMemory.service_over InMemory.with_model_file)).
  reflexivity.
Defined.

Lemma startup_event_ends_loaded_witness :
  let a := InMemory.service_over InMemory.with_model_file in
  outcome (Main.startup_event a) = inr tt /\
  exists m,
    Main.predictor (final (Main.startup_event a))
    = Some {| Predictor.model := Some m; Predictor.is_loaded := true;
              Predictor.feature_names := Predictor.FEATURE_NAMES |}.
Proof.
  split; [reflexivity|].
  apply (@startup_event_ends_loaded InMemory.fitting
           (InMemory.service_over InMemory.with_model_file)).
  reflexivity.
Defined.

Lemma predict_priority_returns_prediction_witness :
  let p := InMemory.loaded_with InMemory.ground_truth_model in
  let a := @Main.mkApp InMemory.fitting (Some p) (InMemory.fitting_world ∅) in
  let patient := {| Main.age := 65; Main.severity := 8; Main.rural := 1;
                    Main.chronic := 1; Main.waiting_time := 30 |} in
  (Main.predictor a = Some p /\ Predictor.is_loaded p = true /\
   Predictor.model p = Some InMemory.ground_truth_model) /\
  exists r,
    Main.predict_priority patient a = (inr r, a) /\
    outcome (Predictor.predict (Main.age patient) (Main.severity patient)
               (Main.rural patient) (Main.chronic patient)
               (Main.waiting_time patient)
               (Predictor.mkObj p (Main.app_world a))) = inr r /\
    (0 <= Predictor.priority_score r <= 100)%Z.
Proof.
  split; [repeat split|].
  apply (@predict_priority_returns_prediction InMemory.fitting
           (@Main.mkApp InMemory.fitting
              (Some (InMemory.loaded_with InMemory.ground_truth_model))
              (InMemory.fitting_world ∅))
           _ (InMemory.loaded_with InMemory.ground_truth_model)
           InMemory.ground_truth_model);
    reflexivity.
Defined.

Lemma save_then_load_predicts_alike_witness :
  let path := "model/trained_model.joblib" in
  let m := InMemory.ground_truth_model in
  let o := @Predictor.mkObj InMemory.fitting (InMemory.loaded_with m)
             (InMemory.fitting_world ∅) in
  (Predictor.model (Predictor.self o) = Some m /\
   Predictor.is_loaded (Predictor.self o) = true /\
   (forall fs1 fs2,
      @joblib_dump InMemory.fitting m path fs1 = (inr tt, fs2) ->
      @joblib_load InMemory.fitting path fs2 = inr m) /\
   outcome (Predictor.save_model path o) = inr tt) /\
  outcome (Predictor.load_model path
             (Predictor.mkObj Predictor.__init__
                (Predictor.world (final (Predictor.save_model path o)))))
    = inr tt /\
  forall age severity rural chronic waiting_time,
    outcome (Predictor.predict age severity rural chronic waiting_time
               (final (Predictor.load_model path
                         (Predictor.mkObj Predictor.__init__
                            (Predictor.world
                               (final (Predictor.save_model path o)))))))
    = outcome (Predictor.predict age severity rural chronic waiting_time o).
Proof.
  assert (forall fs1 fs2 : gmap string Model,
            @joblib_dump InMemory.fitting InMemory.ground_truth_model
              "model/trained_model.joblib" fs1 = (inr tt, fs2) ->
            @joblib_load InMemory.fitting "model/trained_model.joblib" fs2
            = inr InMemory.ground_truth_model) as Hjoblib.
  { intros fs1 fs2 [= <-]. unfold joblib_load. simpl. unfold InMemory.load.
    now rewrite lookup_insert_eq. }
  split; [repeat split; exact Hjoblib|].
  apply (@save_then_load_predicts_alike InMemory.fitting
           "model/trained_model.joblib"
           (@Predictor.mkObj InMemory.fitting
              (InMemory.loaded_with InMemory.ground_truth_model)
              (InMemory.fitting_world ∅))
           InMemory.ground_truth_model);
    [reflexivity | reflexivity | exact Hjoblib | reflexivity].
Defined.

(** ** Labels, effects of [predict], and a failing fit *)

Section MoreTraining.
Import Predictor Trainer.
Context `{L : Libs}.

(** For arrays of integers and finite floats (no NaN among them),
    whatever their values and lengths, the scores
    [compute_priority_score] returns all lie between 0 and 100. *)
Theorem compute_priority_score_labels_in_range
    (age severity rural chronic : list Z) (waiting_time : list Q)
    (w : World) (ys : list Q) :
  outcome (compute_priority_score age severity rural chronic waiting_time w)
    = inr ys ->
  Forall (fun label => (0 <= label <= 100)%Q) ys.
Proof.
  unfold compute_priority_score, bind, lift, ret, outcome.
  repeat match goal with
         | |- context [match ?x with _ => _ end] =>
             lazymatch x with
             | context [match _ with _ => _ end] => fail
             | _ => destruct x as [?|?] eqn:?
             end; simpl
         | |- context [let (_, _) := ?x in _] => destruct x as [? ?] eqn:?
         end; try discriminate.
  intros [= <-]. apply Forall_fmap_all. intros x.
  apply (np_clip_bounds _ 0 100). discriminate.
Qed.

(** [predict] has no effect: it leaves the predictor, the files, the
    generator and the output exactly as they were, and what it returns
    or raises depends on the predictor alone. *)
Theorem predict_has_no_effect (o o' : Obj)
    (age severity rural chronic : Z) (waiting_time : Q) :
  final (predict age severity rural chronic waiting_time o) = o /\
  (self o = self o' ->
   outcome (predict age severity rural chronic waiting_time o)
   = outcome (predict age severity rural chronic waiting_time o')).
Proof.
  destruct o as [[[m|] [|] fo] w], o' as [p' w']; simpl;
    (split; [reflexivity|]); intros <-; reflexivity.
Qed.

(** A split or a fit that raises leaves the predictor and the files as
    they were: the model that was active stays active. *)
Theorem train_model_fit_failure_keeps_model (X : list Row) (y : list Q)
    (model_path : string) (o : Obj) (e : Exn) :
  (train_test_split X y = inl e \/
   exists X_train X_test y_train y_test,
     train_test_split X y = inr (X_train, X_test, y_train, y_test) /\
     XGBRegressor_fit X_train y_train X_test y_test = inl e) ->
  outcome (train_model X y model_path o) = inl e /\
  self (final (train_model X y model_path o)) = self o /\
  fs (world (final (train_model X y model_path o))) = fs (world o).
Proof.
  intros [Hsplit | (X_train & X_test & y_train & y_test & Hsplit & Hfit)];
    unfold train_model; erewrite bind_inr by reflexivity; rewrite Hsplit.
  - erewrite bind_inl by reflexivity. repeat split.
  - erewrite bind_inr by reflexivity. cbv beta iota. rewrite Hfit.
    erewrite bind_inl by reflexivity. repeat split.
Qed.

End MoreTraining.

Lemma compute_priority_score_labels_in_range_witness :
  exists ys,
    outcome (Trainer.compute_priority_score [70; 30]%Z [9; 2]%Z [1; 0]%Z
               [1; 0]%Z [90; 15]%Q (InMemory.fitting_world ∅)) = inr ys /\
    Forall (fun label => (0 <= label <= 100)%Q) ys.
Proof.
  eexists. split; [reflexivity|].
  apply (@compute_priority_score_labels_in_range InMemory.fitting
           [70; 30]%Z [9; 2]%Z [1; 0]%Z [1; 0]%Z [90; 15]%Q
           (InMemory.fitting_world ∅)).
  reflexivity.
Defined.

Lemma train_model_fit_failure_keeps_model_witness :
  let o := @Predictor.mkObj InMemory.failing
             (InMemory.loaded_with InMemory.ground_truth_model)
             (InMemory.failing_world ∅) in
  let run := Trainer.train_model InMemory.samples InMemory.labels
               "model/trained_model.joblib" o in
  let e := PyError "XGBoostError" "fit failed" in
  (exists X_train X_test y_train y_test,
     @train_test_split InMemory.failing InMemory.samples InMemory.labels
       = inr (X_train, X_test, y_train, y_test) /\
     @XGBRegressor_fit InMemory.failing X_train y_train X_test y_test
       = inl e) /\
  outcome run = inl e /\
  Predictor.self (final run) = Predictor.self o /\
  fs (Predictor.world (final run)) = fs (Predictor.world o).
Proof.
  assert (exists X_train X_test y_train y_test,
            @train_test_split InMemory.failing InMemory.samples
              InMemory.labels = inr (X_train, X_test, y_train, y_test) /\
            @XGBRegressor_fit InMemory.failing X_train y_train X_test y_test
            = inl (PyError "XGBoostError" "fit failed")) as H
    by (do 4 eexists; split; reflexivity).
  split; [exact H|].
  apply (@train_model_fit_failure_keeps_model InMemory.failing).
  right. exact H.
Defined.
